(** * youtube_ss.py: one frame per second from a remote video stream

    A shallow embedding of [capture_every_second] (src/youtube_ss.py) and
    the properties of its specification.  Line numbers are those of the
    source file.

    The procedure talks to three external capabilities: the file system
    ([os.makedirs], [cv2.imwrite]), the stream resolver ([yt_dlp]) and the
    decoder ([cv2.VideoCapture]).  Their answers are the fields of a [World];
    their effects are recorded in an explicit [State] (file system, capture
    handle, chronological trace of the external calls).  Python exceptions
    are the left summand of the result of a computation; the state reached
    when the exception was raised is kept, so that what a failing run leaves
    behind can be stated.

    What the model fixes about the outside:
    - the answers of a [World] are functions: asked the same thing twice,
      during a run or in a later run, the world answers the same;
    - paths are POSIX paths, and a directory or a file is known by the path
      as it is spelled;
    - the position of the capture is an exact number of milliseconds;
    - [print] is left out: the console is not part of the contract. *)

From Stdlib Require Import ZArith Ascii String List Lia Bool.
From Stdlib Require Import SpecFloat DecimalString DecimalN DecimalPos.
From stdpp Require Import base gmap strings list fin_maps.

Local Open Scope Z_scope.

(** ** Python values *)

Module Py.

(** The exceptions the procedure can propagate. *)
Inductive Exn :=
| DownloadError        (* yt_dlp: metadata extraction failed *)
| KeyError             (* info['url'] absent *)
| RuntimeError         (* line 62: stream not opened *)
| ValueError           (* line 81: inverted range; int(nan) *)
| OverflowError        (* int(inf) *)
| ZeroDivisionError    (* line 69: float division by zero *)
| FileNotFoundError    (* os.makedirs('') *)
| FileExistsError      (* os.makedirs on a regular file *)
| NotADirectoryError   (* os.makedirs below a regular file *)
| PermissionError      (* os.makedirs refused by the system *)
| CvError.             (* cv2.error raised by imwrite *)

#[global] Instance Exn_eq_dec : EqDecision Exn.
Proof. solve_decision. Defined.

(** Python floats are IEEE 754 binary64 numbers. *)
Definition float := spec_float.
Definition prec : Z := 53.
Definition emax : Z := 1024.

(** [float(n)] for a Python integer: correctly rounded, [OverflowError]
    when the integer is too large for a double. *)
Definition float_of_int (n : Z) : Exn + float :=
  match binary_normalize prec emax n 0 false with
  | S754_infinity _ => inl OverflowError
  | f => inr f
  end.

Definition is_zero (f : float) : bool :=
  match f with S754_zero _ => true | _ => false end.

(** [n / d] with [n] an int and [d] a float (line 69). *)
Definition truediv (n : Z) (d : float) : Exn + float :=
  match float_of_int n with
  | inl e => inl e
  | inr fn => if is_zero d then inl ZeroDivisionError
              else inr (SFdiv prec emax fn d)
  end.

(** The integer [±m * 2^e] cut toward zero. *)
Definition trunc_finite (s : bool) (m : positive) (e : Z) : Z :=
  let a := if 0 <=? e then Z.pos m * 2 ^ e else Z.pos m / 2 ^ (- e) in
  if s then - a else a.

(** [int(f)]: truncation toward zero; NaN and the infinities raise. *)
Definition int (f : float) : Exn + Z :=
  match f with
  | S754_zero _ => inr 0
  | S754_infinity _ => inl OverflowError
  | S754_nan => inl ValueError
  | S754_finite s m e => inr (trunc_finite s m e)
  end.

(** [n > f] with [n] an int and [f] a float: Python compares the exact
    values; every comparison with NaN is false. *)
Definition int_gt_float (n : Z) (f : float) : bool :=
  match f with
  | S754_zero _ => 0 <? n
  | S754_infinity s => s
  | S754_nan => false
  | S754_finite s m e =>
      let v := if s then Z.neg m else Z.pos m in
      if 0 <=? e then v * 2 ^ e <? n else v <? n * 2 ^ (- e)
  end.

(** [str(n)] for a non-negative integer. *)
Definition digits (n : N) : string := NilZero.string_of_uint (N.to_uint n).

Fixpoint zeros (k : nat) : string :=
  match k with O => EmptyString | S k' => String "0" (zeros k') end.

(** [format(n, '04d')]: sign first, then zeros up to a total width of 4. *)
Definition format_04d (n : Z) : string :=
  let body := digits (Z.abs_N n) in
  let sign := if n <? 0 then "-" else "" in
  sign +:+ zeros (4 - String.length sign - String.length body) +:+ body.

End Py.

(** [floor] of a float, as the specification words the clamp of the end
    second; [None] where the float is not a number. *)
Definition floor_float (f : Py.float) : option Z :=
  match f with
  | S754_zero _ => Some 0
  | S754_finite s m e =>
      let v := if s then Z.neg m else Z.pos m in
      Some (if 0 <=? e then v * 2 ^ e else v / 2 ^ (- e))
  | _ => None
  end.

(** The sign test [0 <= f] on floats. *)
Definition float_nonneg (f : Py.float) : bool :=
  match f with
  | S754_zero _ => true
  | S754_infinity s | S754_finite s _ _ => negb s
  | S754_nan => false
  end.


(** ** The file system *)

(** A decoded image, as the bytes of its pixel buffer. *)
Definition Frame := list N.

(** Directories and regular files, both keyed by the path as it is spelled. *)
Record FS := mkFS {
  dirs : gset string;
  files : gmap string Frame;
}.

Definition add_dir (p : string) (fs : FS) : FS :=
  {| dirs := {[p]} ∪ dirs fs; files := files fs |}.

Definition put_file (p : string) (img : Frame) (fs : FS) : FS :=
  {| dirs := dirs fs; files := <[p := img]> (files fs) |}.

Definition slash : ascii := "/"%char.

Definition ends_with_slash (s : string) : bool :=
  match String.rev s with
  | String c _ => bool_decide (c = slash)
  | EmptyString => false
  end.

(** [posixpath.join(a, b)] for a [b] that is not absolute. *)
Definition path_join (a b : string) : string :=
  if bool_decide (a = "") || ends_with_slash a then a +:+ b
  else a +:+ "/" +:+ b.

(** The proper ancestors of a path, outermost first: the non-empty prefixes
    that stop right before a separator. *)
Fixpoint ancestors_from (pre rest : string) : list string :=
  match rest with
  | EmptyString => []
  | String c rest' =>
      (if bool_decide (c = slash) && negb (bool_decide (pre = ""))
          && negb (ends_with_slash pre)
       then [pre] else [])
      ++ ancestors_from (pre +:+ String c "") rest'
  end.

Definition ancestors (p : string) : list string := ancestors_from "" p.

(** How a call of [cv2.imwrite] ends. *)
Inductive WriteResult :=
| Written      (* the file is on disk, imwrite returns True *)
| Refused      (* nothing on disk, imwrite returns False *)
| Crashed.     (* imwrite raises cv2.error *)

#[global] Instance WriteResult_eq_dec : EqDecision WriteResult.
Proof. solve_decision. Defined.

(** ** The external world *)

(** An opened (or not) [cv2.VideoCapture]. *)
Record Stream := mkStream {
  isOpened : bool;
  CAP_PROP_FPS : Py.float;
  CAP_PROP_FRAME_COUNT : Py.float;
  (** the frame decoded at a position in milliseconds, if any *)
  frame_at : Z → option Frame;
}.

Record World := mkWorld {
  (** [ydl.extract_info(url, download=False)]: [None] when extraction
      raises, otherwise the ['url'] entry of the info dictionary, if any *)
  extract_info : string → option (option string);
  (** [cv2.VideoCapture(stream_url)] *)
  VideoCapture : string → Stream;
  (** whether the system lets [os.mkdir] create this directory *)
  may_mkdir : string → bool;
  (** what the system answers when [cv2.imwrite] stores this file *)
  may_write : string → WriteResult;
}.

(** ** State, trace and the exception monad *)

Inductive Event :=
| EvMakedirs (dir : string)
| EvExtractInfo (url : string)
| EvVideoCapture (stream_url : string)
| EvDivide (frame_count : Z) (fps : Py.float)
| EvSeek (msec : Z)
| EvRead (got : bool)
| EvImwrite (fname : string) (img : Frame) (res : WriteResult)
| EvRelease.

#[global] Instance Event_eq_dec : EqDecision Event.
Proof.
  assert (EqDecision spec_float) by (unfold EqDecision, Decision; decide equality;
    solve [apply bool_eq_dec | apply Pos.eq_dec | apply Z.eq_dec]).
  unfold Py.float. solve_decision.
Defined.

Record State := mkState {
  st_fs : FS;
  st_pos : Z;            (* CAP_PROP_POS_MSEC of the capture *)
  st_released : nat;     (* how many times cap.release() ran *)
  st_trace : list Event; (* external calls, oldest first *)
}.

Definition initial (fs : FS) : State :=
  {| st_fs := fs; st_pos := 0; st_released := 0; st_trace := [] |}.

Definition M (A : Type) : Type := State → (Py.Exn + A) * State.

Definition ret {A} (a : A) : M A := λ st, (inr a, st).
Definition raise {A} (e : Py.Exn) : M A := λ st, (inl e, st).
Definition bind {A B} (m : M A) (k : A → M B) : M B :=
  λ st, match m st with
        | (inl e, st') => (inl e, st')
        | (inr a, st') => k a st'
        end.
Definition lift {A} (r : Py.Exn + A) : M A := λ st, (r, st).

Notation "'do' x <- m ; k" := (bind m (λ x, k))
  (at level 10, x name, m at level 100, k at level 200).

Definition emit (e : Event) : M unit :=
  λ st, (inr tt, {| st_fs := st_fs st; st_pos := st_pos st;
                    st_released := st_released st;
                    st_trace := st_trace st ++ [e] |}).

Definition get_fs : M FS := λ st, (inr (st_fs st), st).
Definition set_fs (fs : FS) : M unit :=
  λ st, (inr tt, {| st_fs := fs; st_pos := st_pos st;
                    st_released := st_released st;
                    st_trace := st_trace st |}).

(** ** External calls *)

(** One [os.mkdir], tolerant of a directory that is already there. *)
Definition mkdir_step (w : World) (leaf : bool) (p : string) : M unit :=
  do fs <- get_fs;
  if bool_decide (p ∈ dirs fs) then ret tt
  else if bool_decide (p ∈ dom (files fs))
       then raise (if leaf then Py.FileExistsError else Py.NotADirectoryError)
  else if may_mkdir w p then set_fs (add_dir p fs)
  else raise Py.PermissionError.

Fixpoint mkdir_all (w : World) (ps : list string) : M unit :=
  match ps with
  | [] => ret tt
  | p :: ps' => do _ <- mkdir_step w false p; mkdir_all w ps'
  end.

(** [os.makedirs(name, exist_ok=exist_ok)]: a directory that is already
    there is an error only without [exist_ok]; otherwise the missing
    ancestors are created, outermost first, then the directory itself. *)
Definition os_makedirs (w : World) (name : string) (exist_ok : bool) : M unit :=
  do _ <- emit (EvMakedirs name);
  do fs <- get_fs;
  if bool_decide (name ∈ dirs fs)
  then (if exist_ok then ret tt else raise Py.FileExistsError)
  else if bool_decide (name = "") then raise Py.FileNotFoundError
  else do _ <- mkdir_all w (ancestors name); mkdir_step w true name.

(** Lines 53-56: resolve the link and pick [info['url']]. *)
Definition resolve_stream_url (w : World) (youtube_url : string) : M string :=
  do _ <- emit (EvExtractInfo youtube_url);
  match extract_info w youtube_url with
  | None => raise Py.DownloadError
  | Some None => raise Py.KeyError
  | Some (Some stream_url) => ret stream_url
  end.

(** Lines 60-62. *)
Definition open_capture (w : World) (stream_url : string) : M Stream :=
  do _ <- emit (EvVideoCapture stream_url);
  let cap := VideoCapture w stream_url in
  if negb (isOpened cap) then raise Py.RuntimeError else ret cap.

(** Lines 65-72: the duration in seconds. *)
Definition measure (cap : Stream) : M Py.float :=
  let fps := CAP_PROP_FPS cap in
  do frame_count <- lift (Py.int (CAP_PROP_FRAME_COUNT cap));
  do _ <- emit (EvDivide frame_count fps);
  lift (Py.truediv frame_count fps).

(** [cap.set(cv2.CAP_PROP_POS_MSEC, msec)] *)
Definition cap_set_pos (msec : Z) : M unit :=
  λ st, (inr tt, {| st_fs := st_fs st; st_pos := msec;
                    st_released := st_released st;
                    st_trace := st_trace st ++ [EvSeek msec] |}).

(** [cap.read()]: [None] is [ret = False]. *)
Definition cap_read (cap : Stream) : M (option Frame) :=
  λ st, let r := frame_at cap (st_pos st) in
        (inr r, {| st_fs := st_fs st; st_pos := st_pos st;
                   st_released := st_released st;
                   st_trace := st_trace st ++ [EvRead (bool_decide (is_Some r))] |}).

(** [cap.release()] *)
Definition cap_release : M unit :=
  λ st, (inr tt, {| st_fs := st_fs st; st_pos := st_pos st;
                    st_released := S (st_released st);
                    st_trace := st_trace st ++ [EvRelease] |}).

(** How writing [fname] ends: a path that names a directory is refused. *)
Definition write_outcome (w : World) (ds : gset string) (fname : string)
    : WriteResult :=
  match may_write w fname with
  | Written => if bool_decide (fname ∈ ds) then Refused else Written
  | r => r
  end.

(** [cv2.imwrite(fname, frame)]: the returned flag, unless it raises. *)
Definition cv2_imwrite (w : World) (fname : string) (img : Frame) : M bool :=
  do fs <- get_fs;
  let res := write_outcome w (dirs fs) fname in
  do _ <- emit (EvImwrite fname img res);
  match res with
  | Crashed => raise Py.CvError
  | Refused => ret false
  | Written => do _ <- set_fs (put_file fname img fs); ret true
  end.

(** ** The procedure *)

(** How the [for] loop was left. *)
Inductive LoopExit :=
| Exhausted                (* the range ran out *)
| StoppedEarly (sec : Z).  (* [break] at this second *)

Definition frame_name (sec : Z) : string :=
  "frame_" +:+ Py.format_04d sec +:+ ".jpg".

(** Line 93. *)
Definition frame_path (output_dir : string) (sec : Z) : string :=
  path_join output_dir (frame_name sec).

(** Lines 84-97: [n] seconds are left in the range, [sec] is the next.
    The flag returned by [cv2.imwrite] is dropped, as in the source. *)
Fixpoint capture_loop (w : World) (cap : Stream) (output_dir : string)
    (n : nat) (sec : Z) : M LoopExit :=
  match n with
  | O => ret Exhausted
  | S n' =>
      do _ <- cap_set_pos (sec * 1000);
      do r <- cap_read cap;
      match r with
      | None => ret (StoppedEarly sec)
      | Some frame =>
          do _ <- cv2_imwrite w (frame_path output_dir sec) frame;
          capture_loop w cap output_dir n' (sec + 1)
      end
  end.

(** [len(range(a, b))] *)
Definition range_len (a b : Z) : nat := Z.to_nat (b - a).

(** Lines 77-78: the end second after the clamp. *)
Definition clamp_end (end_sec : option Z) (duration : Py.float) : Py.Exn + Z :=
  match end_sec with
  | None => Py.int duration
  | Some e => if Py.int_gt_float e duration then Py.int duration else inr e
  end.

(** Lines 75-81: the range that will be sampled. *)
Definition adjust_range (start_sec : Z) (end_sec : option Z)
    (duration : Py.float) : Py.Exn + Z * Z :=
  let start_sec := Z.max 0 start_sec in
  match clamp_end end_sec duration with
  | inl x => inl x
  | inr end_sec =>
      if start_sec >? end_sec then inl Py.ValueError
      else inr (start_sec, end_sec)
  end.

(** Lines 75-102. *)
Definition sample (w : World) (cap : Stream) (duration : Py.float)
    (output_dir : string) (start_sec : Z) (end_sec : option Z) : M LoopExit :=
  do range <- lift (adjust_range start_sec end_sec duration);
  do exit <- capture_loop w cap output_dir
               (range_len range.1 (range.2 + 1)) range.1;
  do _ <- cap_release;
  ret exit.

(** Lines 53-72: from the link to an opened capture and its duration. *)
Definition acquire (w : World) (youtube_url : string) : M (Stream * Py.float) :=
  do stream_url <- resolve_stream_url w youtube_url;
  do cap <- open_capture w stream_url;
  do duration <- measure cap;
  ret (cap, duration).

Definition capture_every_second (w : World) (youtube_url output_dir : string)
    (start_sec : Z) (end_sec : option Z) : M LoopExit :=
  do _ <- os_makedirs w output_dir true;
  do m <- acquire w youtube_url;
  sample w m.1 m.2 output_dir start_sec end_sec.

(** A run from a file system, with nothing opened yet. *)
Definition run (w : World) (youtube_url output_dir : string)
    (start_sec : Z) (end_sec : option Z) (fs : FS) : (Py.Exn + LoopExit) * State :=
  capture_every_second w youtube_url output_dir start_sec end_sec (initial fs).

(** ** Vocabulary of the properties *)

(** Reading a decimal numeral back, leading zeros allowed. *)
Definition read_decimal (s : string) : option N :=
  option_map N.of_uint (NilEmpty.uint_of_string s).

(** Lines 41-72: everything that happens before the range is looked at. *)
Definition prepare (w : World) (youtube_url output_dir : string)
    : M (Stream * Py.float) :=
  do _ <- os_makedirs w output_dir true; acquire w youtube_url.

Definition with_fs (fs : FS) (st : State) : State :=
  {| st_fs := fs; st_pos := st_pos st; st_released := st_released st;
     st_trace := st_trace st |}.

Definition set_files (F : gmap string Frame) (st : State) : State :=
  with_fs {| dirs := dirs (st_fs st); files := F |} st.

Definition log (evs : list Event) (st : State) : State :=
  {| st_fs := st_fs st; st_pos := st_pos st; st_released := st_released st;
     st_trace := st_trace st ++ evs |}.

(** The seconds [a], [a+1], ... ([k] of them). *)
Fixpoint seconds (a : Z) (k : nat) : list Z :=
  match k with O => [] | S k' => a :: seconds (a + 1) k' end.

(** What the body of the loop leaves in the trace for second [u], when the
    directories are [ds]. *)
Definition second_events (w : World) (ds : gset string) (cap : Stream)
    (output_dir : string) (u : Z) : list Event :=
  match frame_at cap (u * 1000) with
  | None => [EvSeek (u * 1000); EvRead false]
  | Some frame =>
      let fname := frame_path output_dir u in
      [EvSeek (u * 1000); EvRead true;
       EvImwrite fname frame (write_outcome w ds fname)]
  end.

(** The state after the body of the loop ran for second [u]. *)
Definition after_second (w : World) (cap : Stream) (output_dir : string)
    (u : Z) (st : State) : State :=
  let ds := dirs (st_fs st) in
  {| st_fs :=
       match frame_at cap (u * 1000) with
       | Some frame =>
           let fname := frame_path output_dir u in
           if decide (write_outcome w ds fname = Written)
           then put_file fname frame (st_fs st) else st_fs st
       | None => st_fs st
       end;
     st_pos := u * 1000;
     st_released := st_released st;
     st_trace := st_trace st ++ second_events w ds cap output_dir u |}.

Definition process (w : World) (cap : Stream) (output_dir : string)
    (us : list Z) (st : State) : State :=
  foldl (λ st u, after_second w cap output_dir u st) st us.

(** The files stored by the calls of [cv2.imwrite] that succeeded. *)
Definition artifacts (tr : list Event) : list string :=
  omap (λ ev, match ev with
              | EvImwrite fname _ Written => Some fname
              | _ => None
              end) tr.

(** The files handed to [cv2.imwrite], stored or not. *)
Definition write_attempts (tr : list Event) : list string :=
  omap (λ ev, match ev with
              | EvImwrite fname _ _ => Some fname
              | _ => None
              end) tr.

(** A batch of stores into the files of a file system. *)
Definition apply_writes (ws : list (string * Frame)) (F : gmap string Frame)
    : gmap string Frame :=
  foldl (λ F w, <[w.1 := w.2]> F) F ws.

(** A computation that never looks at the regular files, never touches
    the directories and only adds to the trace: started with other files,
    it does the same and stores the same. *)
Definition files_blind {A} (m : M A) : Prop :=
  ∀ st, ∃ r st1 ws evs,
    dirs (st_fs st1) = dirs (st_fs st) ∧
    st_trace st1 = st_trace st ++ evs ∧
    ∀ F, m (set_files F st) = (r, set_files (apply_writes ws F) st1).

(** ** Concrete streams, worlds and file systems *)

(** The float of a small integer literal. *)
Definition float_lit (n : Z) : Py.float :=
  binary_normalize Py.prec Py.emax n 0 false.

(** A stream that opens, reports [fps] and [frames], and decodes at the
    positions [decodable] accepts; the decoded frame carries its position. *)
Definition clip (fps frames : Z) (decodable : Z → bool) : Stream :=
  {| isOpened := true;
     CAP_PROP_FPS := float_lit fps;
     CAP_PROP_FRAME_COUNT := float_lit frames;
     frame_at := λ msec, if decodable msec then Some [Z.to_N msec] else None |}.

(** A world in which every link resolves to [stream], every directory may
    be created, and writing answers [wr]. *)
Definition world_of (stream : Stream) (wr : string → WriteResult) : World :=
  {| extract_info := λ _, Some (Some "https://cdn.example/video.mp4");
     VideoCapture := λ _, stream;
     may_mkdir := λ _, true;
     may_write := wr |}.

Definition all_written : string → WriteResult := λ _, Written.

Definition empty_fs : FS := {| dirs := ∅; files := ∅ |}.

(** 20 seconds at 30 frames per second, decodable up to its end. *)
Definition clip_20s : Stream := clip 30 600 (λ msec, (0 <=? msec) && (msec <=? 20000)).

(** 5 seconds at 30 frames per second: 150 frames, the last one at 4966 ms,
    so nothing decodes at position 5000 ms. *)
Definition clip_5s : Stream := clip 30 150 (λ msec, (0 <=? msec) && (msec <? 5000)).

(** 20 seconds announced, nothing decodable from second 7 on. *)
Definition clip_gap_at_7 : Stream := clip 30 600 (λ msec, (0 <=? msec) && (msec <? 7000)).

(** A stream whose frame rate is reported as 0. *)
Definition clip_no_rate : Stream := clip 0 150 (λ _, true).

(** A stream whose frame count is reported as -1. *)
Definition clip_no_count : Stream := clip 30 (-1) (λ _, true).

(** Writing [frames/frame_0001.jpg] is refused, everything else is stored. *)
Definition second_1_refused : string → WriteResult :=
  λ fname, if bool_decide (fname = "frames/frame_0001.jpg") then Refused else Written.

(** A file system in which [frames] is a regular file. *)
Definition frames_is_a_file : FS := {| dirs := ∅; files := {[ "frames" := [] ]} |}.

(** The durations [150 / 30.0] and [-1 / 30.0]. *)
Definition duration_5s : Py.float :=
  SFdiv Py.prec Py.emax (float_lit 150) (float_lit 30).

Definition video : string := "https://www.youtube.com/watch?v=dQw4w9WgXcQ".

(** The state in which sampling starts when [video] is sampled into the
    new directory [frames] of the empty file system. *)
Definition prepared (frames fps : Z) : State :=
  {| st_fs := {| dirs := {[ "frames" ]}; files := ∅ |};
     st_pos := 0;
     st_released := 0;
     st_trace := [EvMakedirs "frames"; EvExtractInfo video;
                  EvVideoCapture "https://cdn.example/video.mp4";
                  EvDivide frames (float_lit fps)] |}.

(** ** The claims of the specification that the code does not meet, as
    the specification words them *)

(** Release on every exit path: whatever way a run that opened the stream
    ends, [cap.release()] ran exactly once. *)
Definition released_on_every_path : Prop :=
  ∀ w url dir s e fs su,
    extract_info w url = Some (Some su) →
    isOpened (VideoCapture w su) = true →
    EvVideoCapture su ∈ st_trace (run w url dir s e fs).2 →
    st_released (run w url dir s e fs).2 = 1%nat.

(** The guarded division: with a zero frame rate the quotient
    [frame_count / fps] is never evaluated. *)
Definition division_guarded : Prop :=
  ∀ w url dir s e fs su,
    extract_info w url = Some (Some su) →
    Py.is_zero (CAP_PROP_FPS (VideoCapture w su)) = true →
    ∀ n d, EvDivide n d ∉ st_trace (run w url dir s e fs).2.


(** No second skipped between two stored artifacts. *)
Definition no_second_skipped : Prop :=
  ∀ w url dir s e fs exit,
    (run w url dir s e fs).1 = inr exit →
    ∀ u1 u2 u3, u1 < u2 < u3 →
      frame_path dir u1 ∈ artifacts (st_trace (run w url dir s e fs).2) →
      frame_path dir u3 ∈ artifacts (st_trace (run w url dir s e fs).2) →
      frame_path dir u2 ∈ artifacts (st_trace (run w url dir s e fs).2).

(** A write that does not store the frame aborts the run. *)
Definition failed_write_is_fatal : Prop :=
  ∀ w url dir s e fs fname img res,
    EvImwrite fname img res ∈ st_trace (run w url dir s e fs).2 →
    res ≠ Written →
    ∃ x, (run w url dir s e fs).1 = inl x.

(** Every run leaves the output directory behind. *)
Definition directory_always_left : Prop :=
  ∀ w url dir s e fs, dir ∈ dirs (st_fs (run w url dir s e fs).2).

(** ** The signature's defaults and the script's entry point *)

(** Lines 22-24: the arguments a caller may leave out. *)
Definition default_output_dir : string := "frames".
Definition default_start_sec : Z := 0.
Definition default_end_sec : option Z := None.

(** Line 106. *)
Definition YOUTUBE_URL : string := "url here".

(** Lines 105-114: what the file does when it is run as a script. *)
Definition main (w : World) : M LoopExit :=
  capture_every_second w YOUTUBE_URL "output_frames" 948 (Some 1110).

(** A stream that does not open. *)
Definition clip_closed : Stream :=
  {| isOpened := false;
     CAP_PROP_FPS := float_lit 0;
     CAP_PROP_FRAME_COUNT := float_lit 0;
     frame_at := λ _, None |}.

(** A stream whose frame rate is reported as NaN. *)
Definition clip_nan_rate : Stream :=
  {| isOpened := true;
     CAP_PROP_FPS := S754_nan;
     CAP_PROP_FRAME_COUNT := float_lit 150;
     frame_at := λ msec, Some [Z.to_N msec] |}.

(** A world in which no link resolves. *)
Definition world_offline : World :=
  {| extract_info := λ _, None;
     VideoCapture := λ _, clip_closed;
     may_mkdir := λ _, true;
     may_write := all_written |}.

(** A file system that already holds a note beside the frames. *)
Definition fs_with_note : FS :=
  {| dirs := {[ "frames" ]}; files := {[ "frames/notes.txt" := [7%N] ]} |}.

(** The exceptions [os.makedirs] can raise. *)
Definition os_error (x : Py.Exn) : Prop :=
  x = Py.FileNotFoundError ∨ x = Py.FileExistsError ∨
  x = Py.NotADirectoryError ∨ x = Py.PermissionError.


(** * Properties *)

(** ** Floats and integers *)

Section FloatFacts.

Lemma div_lt_iff (v n p : Z) : 0 < p → (v / p < n ↔ v < n * p).
Proof.
  intros Hp. split; intros H.
  - pose proof (Z.mul_succ_div_gt v p Hp). nia.
  - apply Z.div_lt_upper_bound; lia.
Qed.

(** An integer exceeds a float exactly when it exceeds its floor. *)
Lemma int_gt_float_floor (f : Py.float) (fl n : Z) :
  floor_float f = Some fl → Py.int_gt_float n f = (fl <? n).
Proof.
  destruct f as [s|s| |s m e]; simpl; try discriminate.
  - intros [= <-]. reflexivity.
  - intros [= <-]. destruct (0 <=? e) eqn:He; [reflexivity|].
    apply Z.leb_gt in He.
    assert (0 < 2 ^ (- e)) as Hp by (apply Z.pow_pos_nonneg; lia).
    apply eq_iff_eq_true. rewrite !Z.ltb_lt.
    symmetry. apply div_lt_iff, Hp.
Qed.

(** [int] cuts toward zero, so it is the floor or the floor plus one. *)
Lemma int_floor_bounds (f : Py.float) (fl : Z) :
  floor_float f = Some fl →
  ∃ t, Py.int f = inr t ∧ fl ≤ t ≤ fl + 1 ∧ (float_nonneg f = true → t = fl).
Proof.
  destruct f as [s|s| |s m e]; simpl; try discriminate.
  - intros [= <-]. exists 0. split; [done|]. lia.
  - intros [= <-]. unfold Py.trunc_finite.
    eexists. split; [reflexivity|].
    destruct (0 <=? e) eqn:He.
    + destruct s; simpl; split; try lia.
      all: change (Z.neg m) with (- Z.pos m); lia.
    + apply Z.leb_gt in He.
      assert (0 < 2 ^ (- e)) as Hp by (apply Z.pow_pos_nonneg; lia).
      destruct s; simpl; [|split; [lia|done]].
      split; [|discriminate].
      change (Z.neg m) with (- Z.pos m).
      pose proof (Z_div_mod_eq_full (Z.pos m) (2 ^ (- e))) as H1.
      pose proof (Z_div_mod_eq_full (- Z.pos m) (2 ^ (- e))) as H2.
      pose proof (Z.mod_pos_bound (Z.pos m) _ Hp) as B1.
      pose proof (Z.mod_pos_bound (- Z.pos m) _ Hp) as B2.
      nia.
Qed.

End FloatFacts.

(** ** File names *)

Section Names.

Lemma append_cons (c : ascii) (s t : string) :
  String c s +:+ t = String c (s +:+ t).
Proof. reflexivity. Qed.

Lemma append_length (s t : string) :
  String.length (s +:+ t) = (String.length s + String.length t)%nat.
Proof. induction s as [|c s IH]; [done|]. rewrite append_cons. simpl. by rewrite IH. Qed.

Lemma append_inj_same_length (x y s t : string) :
  String.length x = String.length y → x +:+ s = y +:+ t → x = y ∧ s = t.
Proof.
  revert y. induction x as [|c x IH]; intros [|d y] Hlen Heq; try discriminate.
  - done.
  - rewrite !append_cons in Heq. injection Hlen as Hlen. injection Heq as -> Heq.
    destruct (IH y Hlen Heq) as [-> ->]; done.
Qed.

Lemma append_inj_r (x y s : string) : x +:+ s = y +:+ s → x = y.
Proof.
  intros Heq. apply (append_inj_same_length x y s s); [|done].
  apply (f_equal String.length) in Heq. rewrite !append_length in Heq. lia.
Qed.

Lemma read_decimal_zeros (k : nat) (s : string) :
  read_decimal (Py.zeros k +:+ s) = read_decimal s.
Proof.
  induction k as [|k IH]; [done|].
  simpl. rewrite append_cons. unfold read_decimal in *. simpl.
  destruct (NilEmpty.uint_of_string (Py.zeros k +:+ s)) as [d|],
           (NilEmpty.uint_of_string s) as [d'|]; simpl in *; try done.
Qed.

Lemma read_decimal_digits (n : N) : read_decimal (Py.digits n) = Some n.
Proof.
  unfold read_decimal, Py.digits, NilZero.string_of_uint.
  destruct (N.to_uint n) eqn:E.
  1: { destruct n; simpl in E; [done|]. by apply Unsigned.to_uint_nonnil in E. }
  all: rewrite <- E, NilEmpty.usu; simpl; by rewrite DecimalN.Unsigned.of_to.
Qed.

Lemma read_format_04d (n : Z) :
  0 ≤ n → read_decimal (Py.format_04d n) = Some (Z.to_N n).
Proof.
  intros Hn. unfold Py.format_04d.
  assert ((n <? 0) = false) as -> by lia.
  change ("" +:+ ?s) with s.
  rewrite read_decimal_zeros, read_decimal_digits. f_equal. lia.
Qed.

(** Distinct seconds get distinct names. *)
Lemma format_04d_inj (a b : Z) :
  0 ≤ a → 0 ≤ b → Py.format_04d a = Py.format_04d b → a = b.
Proof.
  intros Ha Hb Heq. apply (f_equal read_decimal) in Heq.
  rewrite !read_format_04d in Heq by done. simplify_eq. lia.
Qed.

Lemma frame_name_inj (a b : Z) :
  0 ≤ a → 0 ≤ b → frame_name a = frame_name b → a = b.
Proof.
  unfold frame_name. intros Ha Hb Heq.
  apply (inj (String.append _)) in Heq.
  apply append_inj_r in Heq. by apply format_04d_inj.
Qed.

Lemma path_join_inj (dir x y : string) : path_join dir x = path_join dir y → x = y.
Proof.
  unfold path_join.
  destruct (bool_decide (dir = "") || ends_with_slash dir); intros Heq.
  - by apply (inj (String.append _)) in Heq.
  - apply (inj (String.append _)) in Heq. by apply (inj (String.append _)) in Heq.
Qed.

Lemma frame_path_inj (dir : string) (a b : Z) :
  0 ≤ a → 0 ≤ b → frame_path dir a = frame_path dir b → a = b.
Proof.
  intros Ha Hb Heq. apply path_join_inj in Heq. by apply frame_name_inj.
Qed.

End Names.

(** ** Creating the output directory *)

Section Makedirs.
Context (w : World).

Lemma with_fs_id (st : State) : with_fs (st_fs st) st = st.
Proof. by destruct st. Qed.

Lemma set_files_id (st : State) : set_files (files (st_fs st)) st = st.
Proof. by destruct st as [[??]???]. Qed.

Lemma mkdir_step_spec (leaf : bool) (p : string) (st : State) r st' :
  mkdir_step w leaf p st = (r, st') →
  st' = with_fs (st_fs st') st ∧
  files (st_fs st') = files (st_fs st) ∧
  dirs (st_fs st) ⊆ dirs (st_fs st') ∧
  dirs (st_fs st') ⊆ dirs (st_fs st) ∪ {[p]} ∧
  (r = inr tt → p ∈ dirs (st_fs st')) ∧
  (∀ e, r = inl e → (p ∉ dirs (st_fs st')) ∧ st' = st).
Proof.
  unfold mkdir_step, bind, get_fs, set_fs, ret, raise. simpl.
  case_bool_decide as Hd; [|case_bool_decide as Hf; [|destruct (may_mkdir w p)]];
    intros [= <- <-]; rewrite ?with_fs_id; simpl.
  all: split; [done|]; split; [done|].
  3: { split; [apply union_subseteq_r|]. split; [by rewrite (comm_L (∪))|].
       split; [|done]. intros _. apply elem_of_union_l. by apply elem_of_singleton. }
  all: split; [done|]; split; [apply union_subseteq_l|]; split; [done|].
  all: by intros e [= <-].
Qed.

Lemma mkdir_step_present (leaf : bool) (p : string) (st : State) :
  p ∈ dirs (st_fs st) → mkdir_step w leaf p st = (inr tt, st).
Proof.
  intros Hp. unfold mkdir_step, bind, get_fs, ret. simpl.
  by rewrite bool_decide_eq_true_2.
Qed.

Lemma mkdir_step_idem (leaf : bool) (p : string) (st : State) r st' :
  mkdir_step w leaf p st = (r, st') → mkdir_step w leaf p st' = (r, st').
Proof.
  intros H. destruct (mkdir_step_spec _ _ _ _ _ H) as (_ & _ & _ & _ & Hok & Herr).
  destruct r as [e|[]].
  - destruct (Herr e eq_refl) as [_ ->]. done.
  - apply mkdir_step_present. auto.
Qed.

Lemma mkdir_all_spec (ps : list string) (st : State) r st' :
  mkdir_all w ps st = (r, st') →
  st' = with_fs (st_fs st') st ∧
  files (st_fs st') = files (st_fs st) ∧
  dirs (st_fs st) ⊆ dirs (st_fs st') ∧
  dirs (st_fs st') ⊆ dirs (st_fs st) ∪ list_to_set ps ∧
  (r = inr tt → ∀ p, p ∈ ps → p ∈ dirs (st_fs st')).
Proof.
  revert st. induction ps as [|p ps IH]; intros st H; simpl in H.
  - unfold ret in H. simplify_eq. rewrite with_fs_id.
    split; [done|]. split; [done|]. split; [done|].
    split; [apply union_subseteq_l|]. by intros _ p ?%elem_of_nil.
  - unfold bind in H. destruct (mkdir_step w false p st) as [[e|[]] st1] eqn:E1.
    + simplify_eq. apply mkdir_step_spec in E1 as (? & ? & ? & Hup1 & ? & ?).
      split; [done|]. split; [done|]. split; [done|]. split; [|done].
      rewrite list_to_set_cons. etrans; [exact Hup1|].
      apply union_mono_l, union_subseteq_l.
    + apply mkdir_step_spec in E1 as (E1 & Hf1 & Hsub1 & Hup1 & Hp & _).
      apply IH in H as (H & Hf & Hsub & Hup & Hps).
      split; [rewrite H, E1; done|].
      split; [congruence|].
      split; [by etrans|].
      split.
      * rewrite list_to_set_cons. intros q Hq.
        apply Hup, elem_of_union in Hq as [Hq|Hq].
        -- apply Hup1, elem_of_union in Hq as [Hq|Hq].
           ++ by apply elem_of_union_l.
           ++ by apply elem_of_union_r, elem_of_union_l.
        -- by do 2 apply elem_of_union_r.
      * intros -> q [->|Hq]%elem_of_cons; [|by apply Hps].
        apply Hsub. by apply Hp.
Qed.

Lemma mkdir_all_idem (ps : list string) (st : State) r st' :
  mkdir_all w ps st = (r, st') → mkdir_all w ps st' = (r, st').
Proof.
  revert st. induction ps as [|p ps IH]; intros st H; simpl in *.
  - unfold ret in *. by simplify_eq.
  - unfold bind in *. destruct (mkdir_step w false p st) as [[e|[]] st1] eqn:E1.
    + simplify_eq. by rewrite (mkdir_step_idem _ _ _ _ _ E1).
    + pose proof (mkdir_step_spec _ _ _ _ _ E1) as (_ & _ & _ & _ & Hp & _).
      pose proof (mkdir_all_spec _ _ _ _ H) as (_ & _ & Hsub & _).
      rewrite mkdir_step_present by (apply Hsub, Hp; done).
      by eapply IH.
Qed.

(** Creating directories looks at the file system only. *)
Lemma mkdir_step_fs (leaf : bool) (p : string) (st st2 : State) r st' :
  mkdir_step w leaf p st = (r, st') → st_fs st2 = st_fs st →
  mkdir_step w leaf p st2 = (r, with_fs (st_fs st') st2).
Proof.
  unfold mkdir_step, bind, get_fs, set_fs, ret, raise. intros H Hfs.
  rewrite Hfs. repeat case_bool_decide; try destruct (may_mkdir w p);
    simplify_eq/=; rewrite <- ?Hfs, ?with_fs_id; done.
Qed.

Lemma mkdir_all_fs (ps : list string) (st st2 : State) r st' :
  mkdir_all w ps st = (r, st') → st_fs st2 = st_fs st →
  mkdir_all w ps st2 = (r, with_fs (st_fs st') st2).
Proof.
  revert st st2. induction ps as [|p ps IH]; intros st st2 H Hfs; simpl in *.
  - unfold ret in *. simplify_eq. by rewrite <- Hfs, with_fs_id.
  - unfold bind in *. destruct (mkdir_step w false p st) as [[e|[]] st1] eqn:E1.
    + simplify_eq. by rewrite (mkdir_step_fs _ _ _ _ _ _ E1 Hfs).
    + rewrite (mkdir_step_fs _ _ _ _ _ _ E1 Hfs).
      by rewrite (IH _ (with_fs (st_fs st1) st2) H eq_refl).
Qed.

Lemma ancestors_from_shorter (pre rest p : string) :
  p ∈ ancestors_from pre rest →
  (String.length p < String.length pre + String.length rest)%nat.
Proof.
  revert pre. induction rest as [|c rest IH]; intros pre; simpl.
  - by intros ?%elem_of_nil.
  - intros [H|H]%elem_of_app.
    + destruct (_ && _); [|by apply elem_of_nil in H].
      apply list_elem_of_singleton in H as ->. lia.
    + apply IH in H. rewrite append_length in H. simpl in H. lia.
Qed.

Lemma not_own_ancestor (p : string) : p ∉ ancestors p.
Proof. intros H%ancestors_from_shorter. simpl in H. lia. Qed.

Lemma os_makedirs_present (name : string) (st : State) :
  name ∈ dirs (st_fs st) →
  os_makedirs w name true st = (inr tt, log [EvMakedirs name] st).
Proof.
  intros Hin. unfold os_makedirs, bind, emit, get_fs, ret. simpl.
  by rewrite bool_decide_eq_true_2.
Qed.

Lemma os_makedirs_spec (name : string) (st : State) r st' :
  os_makedirs w name true st = (r, st') →
  st' = log [EvMakedirs name] (with_fs (st_fs st') st) ∧
  files (st_fs st') = files (st_fs st) ∧
  dirs (st_fs st) ⊆ dirs (st_fs st') ∧
  (r = inr tt →
   name ∈ dirs (st_fs st') ∧
   (name ∉ dirs (st_fs st) → ∀ p, p ∈ ancestors name → p ∈ dirs (st_fs st'))) ∧
  (∀ e, r = inl e → name ∉ dirs (st_fs st')).
Proof.
  unfold os_makedirs, bind, emit, get_fs, ret, raise. simpl.
  case_bool_decide as Hin; [|case_bool_decide as Hname].
  - intros [= <- <-]. simpl. repeat split; try done.
  - intros [= <- <-]. simpl. repeat split; try done.
  - match goal with |- context [mkdir_all w ?ps ?s] =>
      destruct (mkdir_all w ps s) as [[e|[]] st1] eqn:E1 end.
    + intros [= <- <-].
      apply mkdir_all_spec in E1 as (E1 & ? & ? & Hup & _). simpl in *.
      split; [by rewrite E1 at 1|].
      split; [done|]. split; [done|]. split; [done|].
      intros _ _ Hd. apply Hup in Hd.
      apply elem_of_union in Hd as [Hd|Hd]; [done|].
      apply elem_of_list_to_set in Hd. by apply not_own_ancestor in Hd.
    + intros E2.
      apply mkdir_all_spec in E1 as (E1 & ? & ? & Hup & Hanc). simpl in *.
      apply mkdir_step_spec in E2 as (E2 & Hf2 & Hsub2 & Hup2 & Hok & Herr).
      split; [rewrite E2, E1; done|].
      split; [congruence|].
      split; [by etrans|].
      split.
      * intros ->. split; [by apply Hok|].
        intros _ p Hp. apply Hsub2. by apply Hanc.
      * intros e ->. by destruct (Herr e eq_refl).
Qed.

Lemma os_makedirs_unfold (name : string) (st : State) :
  os_makedirs w name true st =
  let st1 := log [EvMakedirs name] st in
  if bool_decide (name ∈ dirs (st_fs st)) then (inr tt, st1)
  else if bool_decide (name = "") then (inl Py.FileNotFoundError, st1)
  else match mkdir_all w (ancestors name) st1 with
       | (inl e, st2) => (inl e, st2)
       | (inr _, st2) => mkdir_step w true name st2
       end.
Proof.
  unfold os_makedirs, bind, emit, get_fs, ret, raise. simpl.
  repeat case_bool_decide; done.
Qed.

(** Creating the directory again, from any state with the file system the
    first creation left, ends the same way and changes nothing. *)
Lemma os_makedirs_again (name : string) (st : State) r st' (st2 : State) :
  os_makedirs w name true st = (r, st') →
  st_fs st2 = st_fs st' →
  os_makedirs w name true st2 = (r, log [EvMakedirs name] st2).
Proof.
  intros H Hfs.
  pose proof (os_makedirs_spec _ _ _ _ H) as (_ & _ & _ & Hok & Herr).
  destruct r as [e|[]].
  2: { apply os_makedirs_present. rewrite Hfs. by destruct (Hok eq_refl). }
  specialize (Herr e eq_refl).
  assert (st_fs (log [EvMakedirs name] st2) = st_fs st') as Hfs2 by done.
  revert H. rewrite !os_makedirs_unfold. cbv zeta.
  rewrite Hfs, (bool_decide_eq_false_2 _ Herr).
  case_bool_decide as Hin; [done|]. case_bool_decide as Hname.
  { by intros [= <- _]. }
  destruct (mkdir_all w (ancestors name) (log [EvMakedirs name] st))
    as [[e1|[]] st1] eqn:E1.
  - intros [= -> <-].
    apply mkdir_all_idem in E1.
    rewrite (mkdir_all_fs _ _ (log [EvMakedirs name] st2) _ _ E1 Hfs2).
    by rewrite <- Hfs2, with_fs_id.
  - intros E2.
    pose proof (mkdir_step_spec _ _ _ _ _ E2) as (_ & _ & _ & _ & _ & He).
    destruct (He e eq_refl) as [_ ->].
    apply mkdir_all_idem in E1.
    rewrite (mkdir_all_fs _ _ (log [EvMakedirs name] st2) _ _ E1 Hfs2).
    rewrite <- Hfs2, with_fs_id.
    rewrite (mkdir_step_fs _ _ _ (log [EvMakedirs name] st2) _ _ E2 Hfs2).
    by rewrite <- Hfs2, with_fs_id.
Qed.

End Makedirs.

(** ** Resolving, opening and measuring the stream *)

Section Stages.
Context (w : World).

(** [acquire] only extends the trace; when it returns, the trace tells
    which answers of the world it went through. *)
Lemma acquire_spec (url : string) (st : State) r st' :
  acquire w url st = (r, st') →
  ∃ evs, st' = log evs st ∧ write_attempts evs = [] ∧
    ∀ cap d, r = inr (cap, d) →
      ∃ su fc, extract_info w url = Some (Some su) ∧
        cap = VideoCapture w su ∧ isOpened cap = true ∧
        Py.int (CAP_PROP_FRAME_COUNT cap) = inr fc ∧
        Py.truediv fc (CAP_PROP_FPS cap) = inr d ∧
        evs = [EvExtractInfo url; EvVideoCapture su;
               EvDivide fc (CAP_PROP_FPS cap)].
Proof.
  unfold acquire, resolve_stream_url, open_capture, measure,
    bind, emit, lift, ret, raise. simpl.
  destruct (extract_info w url) as [[su|]|] eqn:Hinfo; simpl.
  2,3: intros [= <- <-]; by exists [EvExtractInfo url].
  destruct (isOpened (VideoCapture w su)) eqn:Hopen; simpl.
  2: { intros [= <- <-]. exists [EvExtractInfo url; EvVideoCapture su].
       unfold log. simpl. by rewrite <- app_assoc. }
  destruct (Py.int _) as [e|fc] eqn:Hfc; simpl.
  1: { intros [= <- <-]. exists [EvExtractInfo url; EvVideoCapture su].
       unfold log. simpl. by rewrite <- app_assoc. }
  destruct (Py.truediv _ _) as [e|d] eqn:Hd; simpl.
  all: intros [= <- <-];
    exists [EvExtractInfo url; EvVideoCapture su;
            EvDivide fc (CAP_PROP_FPS (VideoCapture w su))];
    (split; [unfold log; simpl; by rewrite <- !app_assoc|]);
    (split; [done|]); intros cap d' [= <- <-].
  exists su, fc. done.
Qed.

(** The state in which sampling starts. *)
Lemma prepare_spec (url dir : string) (fs : FS) cap d st :
  prepare w url dir (initial fs) = (inr (cap, d), st) →
  ∃ su fc, extract_info w url = Some (Some su) ∧
    cap = VideoCapture w su ∧ isOpened cap = true ∧
    Py.int (CAP_PROP_FRAME_COUNT cap) = inr fc ∧
    Py.truediv fc (CAP_PROP_FPS cap) = inr d ∧
    st_trace st = [EvMakedirs dir; EvExtractInfo url; EvVideoCapture su;
                   EvDivide fc (CAP_PROP_FPS cap)] ∧
    files (st_fs st) = files fs ∧ dirs fs ⊆ dirs (st_fs st) ∧
    dir ∈ dirs (st_fs st) ∧
    st_released st = 0%nat.
Proof.
  unfold prepare, bind.
  destruct (os_makedirs w dir true (initial fs)) as [[e|[]] st1] eqn:E1; [done|].
  intros E2.
  apply os_makedirs_spec in E1 as (E1 & Hfiles & Hsub & Hok & _).
  destruct (Hok eq_refl) as [Hdir _].
  apply acquire_spec in E2 as (evs & -> & _ & Hret).
  destruct (Hret cap d eq_refl) as (su & fc & ? & ? & ? & ? & ? & ->).
  exists su, fc. repeat split; try done.
  simpl. rewrite E1. done.
  simpl. rewrite E1. done.
Qed.

(** The procedure is the preparation followed by the sampling. *)
Lemma run_prepare (url dir : string) (s : Z) (e : option Z) (fs : FS) :
  run w url dir s e fs =
  match prepare w url dir (initial fs) with
  | (inl x, st) => (inl x, st)
  | (inr m, st) => sample w m.1 m.2 dir s e st
  end.
Proof.
  unfold run, capture_every_second, prepare, bind.
  destruct (os_makedirs w dir true (initial fs)) as [[x|[]] st1]; [done|].
  destruct (acquire w url st1) as [[x|m] st2]; done.
Qed.

Lemma run_sampling (url dir : string) (s : Z) (e : option Z) (fs : FS) cap d st :
  prepare w url dir (initial fs) = (inr (cap, d), st) →
  run w url dir s e fs = sample w cap d dir s e st.
Proof. intros H. by rewrite run_prepare, H. Qed.

End Stages.

(** ** The sampling loop *)

Section Loop.
Context (w : World) (cap : Stream) (dir : string).

Local Abbreviation body := (after_second w cap dir).
Local Abbreviation outcome st u :=
  (write_outcome w (dirs (st_fs st)) (frame_path dir u)).

Lemma elem_of_seconds (a : Z) (k : nat) (v : Z) :
  v ∈ seconds a k ↔ a ≤ v < a + Z.of_nat k.
Proof.
  revert a. induction k as [|k IH]; intros a; simpl.
  - rewrite elem_of_nil. lia.
  - rewrite elem_of_cons, IH. lia.
Qed.

Lemma NoDup_seconds (a : Z) (k : nat) : NoDup (seconds a k).
Proof.
  revert a. induction k as [|k IH]; intros a; simpl; constructor; [|done].
  rewrite elem_of_seconds. lia.
Qed.

Lemma seconds_snoc (a : Z) (k : nat) :
  seconds a (S k) = seconds a k ++ [a + Z.of_nat k].
Proof.
  revert a. induction k as [|k IH]; intros a.
  - simpl. f_equal. lia.
  - change (seconds a (S (S k))) with (a :: seconds (a + 1) (S k)).
    rewrite IH. simpl. do 3 f_equal. lia.
Qed.

Lemma body_dirs (u : Z) (st : State) :
  dirs (st_fs (body u st)) = dirs (st_fs st).
Proof.
  unfold after_second. simpl.
  destruct (frame_at cap (u * 1000)); [|done]. by case_decide.
Qed.

Lemma process_cons (u : Z) (us : list Z) (st : State) :
  process w cap dir (u :: us) st = process w cap dir us (body u st).
Proof. reflexivity. Qed.

Lemma process_snoc (us : list Z) (u : Z) (st : State) :
  process w cap dir (us ++ [u]) st = body u (process w cap dir us st).
Proof. unfold process. by rewrite foldl_app. Qed.

Lemma process_released (us : list Z) (st : State) :
  st_released (process w cap dir us st) = st_released st.
Proof.
  revert st. induction us as [|u us IH]; intros st; [done|].
  by rewrite process_cons, IH.
Qed.

Lemma process_trace (us : list Z) (st : State) :
  st_trace (process w cap dir us st) =
  st_trace st ++ flat_map (second_events w (dirs (st_fs st)) cap dir) us.
Proof.
  revert st. induction us as [|u us IH]; intros st.
  - simpl. by rewrite app_nil_r.
  - rewrite process_cons, IH, body_dirs. simpl. by rewrite <- app_assoc.
Qed.

(** One turn of the loop. *)
Lemma capture_loop_body (n : nat) (u : Z) (st : State) :
  capture_loop w cap dir (S n) u st =
  match frame_at cap (u * 1000) with
  | None => (inr (StoppedEarly u), body u st)
  | Some _ =>
      match outcome st u with
      | Crashed => (inl Py.CvError, body u st)
      | _ => capture_loop w cap dir n (u + 1) (body u st)
      end
  end.
Proof.
  simpl. unfold bind, cap_set_pos, cap_read, cv2_imwrite, bind, get_fs, emit,
    set_fs, raise, ret, after_second, second_events. simpl.
  destruct (frame_at cap (u * 1000)) as [f|] eqn:Hf; simpl.
  2: by rewrite <- app_assoc.
  destruct (outcome st u) eqn:Hw; simpl; rewrite <- !app_assoc; simpl.
  all: try case_decide; try done.
Qed.

(** However the loop ends, it processed a run of consecutive seconds. *)
Lemma capture_loop_inv (n : nat) (u : Z) (st : State) r st' :
  capture_loop w cap dir n u st = (r, st') →
  ∃ k, (k ≤ n)%nat ∧ st' = process w cap dir (seconds u k) st ∧
    ((r = inr Exhausted ∧ k = n ∧
      ∀ v, v ∈ seconds u k →
           is_Some (frame_at cap (v * 1000)) ∧ outcome st v ≠ Crashed) ∨
     (∃ j, k = S j ∧
        (∀ v, v ∈ seconds u j →
              is_Some (frame_at cap (v * 1000)) ∧ outcome st v ≠ Crashed) ∧
        ((r = inr (StoppedEarly (u + Z.of_nat j)) ∧
          frame_at cap ((u + Z.of_nat j) * 1000) = None) ∨
         (r = inl Py.CvError ∧
          is_Some (frame_at cap ((u + Z.of_nat j) * 1000)) ∧
          outcome st (u + Z.of_nat j) = Crashed)))).
Proof.
  revert u st. induction n as [|n IH]; intros u st H.
  - simpl in H. unfold ret in H. simplify_eq. exists 0%nat.
    split; [done|]. split; [done|]. left. split; [done|]. split; [done|].
    by intros v ?%elem_of_nil.
  - rewrite capture_loop_body in H.
    destruct (frame_at cap (u * 1000)) as [f|] eqn:Hf.
    2: { simplify_eq. exists 1%nat. split; [lia|]. split; [done|]. right.
         exists 0%nat. split; [done|]. split; [by intros v ?%elem_of_nil|].
         left. rewrite Z.add_0_r. done. }
    destruct (outcome st u) eqn:Hw.
    3: { simplify_eq. exists 1%nat. split; [lia|]. split; [done|]. right.
         exists 0%nat. split; [done|]. split; [by intros v ?%elem_of_nil|].
         right. rewrite Z.add_0_r, Hf. done. }
    all: apply IH in H as (k & Hk & -> & Hmode); exists (S k);
      (split; [lia|]); (split; [done|]);
      assert (∀ j, (∀ v, v ∈ seconds (u + 1) j →
                 is_Some (frame_at cap (v * 1000)) ∧
                 outcome (body u st) v ≠ Crashed) →
               ∀ v, v ∈ seconds u (S j) →
                 is_Some (frame_at cap (v * 1000)) ∧ outcome st v ≠ Crashed)
        as Hext
        by (intros j Hj v [->|Hv]%elem_of_cons;
            [rewrite Hf, Hw; done | rewrite <- (body_dirs u st); by apply Hj]);
      destruct Hmode as [(-> & -> & Hall)|(j & -> & Hall & Hend)].
    all: try (left; split; [done|]; split; [done|]; by apply Hext).
    all: right; exists (S j); split; [done|]; split; [by apply Hext|];
      replace (u + Z.of_nat (S j)) with (u + 1 + Z.of_nat j) by lia;
      rewrite <- (body_dirs u st); done.
Qed.

(** What the processed seconds leave in the files. *)
Lemma body_files_other (u : Z) (st : State) (p : string) :
  p ≠ frame_path dir u →
  files (st_fs (body u st)) !! p = files (st_fs st) !! p.
Proof.
  intros Hp. unfold after_second. simpl.
  destruct (frame_at cap (u * 1000)); [|done].
  case_decide; [|done]. simpl. by rewrite lookup_insert_ne.
Qed.

Lemma process_files_other (us : list Z) (st : State) (p : string) :
  (∀ u, u ∈ us → p ≠ frame_path dir u) →
  files (st_fs (process w cap dir us st)) !! p = files (st_fs st) !! p.
Proof.
  revert st. induction us as [|u us IH]; intros st Hp; [done|].
  rewrite process_cons, IH by (intros v Hv; apply Hp; by right).
  apply body_files_other, Hp. by left.
Qed.

Lemma process_files_at (us : list Z) (st : State) (u : Z) :
  NoDup us → (∀ v, v ∈ us → 0 ≤ v) → u ∈ us →
  files (st_fs (process w cap dir us st)) !! frame_path dir u =
  match frame_at cap (u * 1000) with
  | Some f => if decide (outcome st u = Written) then Some f
              else files (st_fs st) !! frame_path dir u
  | None => files (st_fs st) !! frame_path dir u
  end.
Proof.
  revert st. induction us as [|v us IH]; intros st Hnd Hpos Hu.
  { by apply elem_of_nil in Hu. }
  apply NoDup_cons in Hnd as [Hv Hnd]. rewrite process_cons.
  assert (∀ x, x ∈ us → 0 ≤ x) as Hpos' by (intros x Hx; apply Hpos; by right).
  assert (0 ≤ v) as Hv0 by (apply Hpos; by left).
  apply elem_of_cons in Hu as [->|Hu].
  - rewrite process_files_other.
    + unfold after_second. simpl.
      destruct (frame_at cap (v * 1000)); [|done].
      case_decide; [|done]. simpl. by rewrite lookup_insert_eq.
    + intros x Hx Heq. apply frame_path_inj in Heq; [|done|by apply Hpos'].
      by subst.
  - rewrite IH by done. rewrite body_dirs.
    rewrite body_files_other; [done|].
    intros Heq. apply frame_path_inj in Heq; [|by apply Hpos'|done].
    by subst.
Qed.

End Loop.

Lemma filter_all {A} (P : A → Prop) `{∀ x, Decision (P x)} (l : list A) :
  (∀ x, x ∈ l → P x) → filter P l = l.
Proof.
  induction l as [|x l IH]; intros Hall; [done|].
  rewrite filter_cons_True by (apply Hall; by left).
  f_equal. apply IH. intros y Hy. apply Hall. by right.
Qed.


(** ** Computations that do not look at the files *)

Section Blind.
Context (w : World).

Lemma apply_writes_app (ws1 ws2 : list (string * Frame)) (F : gmap string Frame) :
  apply_writes (ws1 ++ ws2) F = apply_writes ws2 (apply_writes ws1 F).
Proof. unfold apply_writes. by rewrite foldl_app. Qed.

(** The entry a batch of stores leaves at a path depends on the entry
    that was there only. *)
Lemma apply_writes_pointwise (ws : list (string * Frame))
    (F G : gmap string Frame) (p : string) :
  F !! p = G !! p → apply_writes ws F !! p = apply_writes ws G !! p.
Proof.
  revert F G. induction ws as [|[q img] ws IH]; intros F G H; [done|].
  simpl. apply IH. rewrite !lookup_insert. by case_decide.
Qed.

(** Storing the same batch a second time changes nothing. *)
Lemma apply_writes_idem (ws : list (string * Frame)) (F : gmap string Frame) :
  apply_writes ws (apply_writes ws F) = apply_writes ws F.
Proof.
  induction ws as [|[q img] ws IH] using rev_ind; [done|].
  rewrite !apply_writes_app. simpl. apply map_eq. intros p.
  rewrite !lookup_insert. case_decide; [done|].
  rewrite <- IH at 2. apply apply_writes_pointwise.
  rewrite lookup_insert. by case_decide.
Qed.

Lemma blind_ret {A} (a : A) : files_blind (ret a).
Proof. intros st. exists (inr a), st, [], []. by rewrite app_nil_r. Qed.

Lemma blind_raise {A} (e : Py.Exn) : files_blind (@raise A e).
Proof. intros st. exists (inl e), st, [], []. by rewrite app_nil_r. Qed.

Lemma blind_lift {A} (r : Py.Exn + A) : files_blind (lift r).
Proof. intros st. exists r, st, [], []. by rewrite app_nil_r. Qed.

Lemma blind_emit (e : Event) : files_blind (emit e).
Proof. intros st. by exists (inr tt), (log [e] st), [], [e]. Qed.

Lemma blind_cap_set_pos (msec : Z) : files_blind (cap_set_pos msec).
Proof.
  intros st. by exists (inr tt), (cap_set_pos msec st).2, [], [EvSeek msec].
Qed.

Lemma blind_cap_read (cap : Stream) : files_blind (cap_read cap).
Proof.
  intros st.
  by exists (inr (frame_at cap (st_pos st))), (cap_read cap st).2, [],
    [EvRead (bool_decide (is_Some (frame_at cap (st_pos st))))].
Qed.

Lemma blind_cap_release : files_blind cap_release.
Proof. intros st. by exists (inr tt), (cap_release st).2, [], [EvRelease]. Qed.

Lemma blind_bind {A B} (m : M A) (k : A → M B) :
  files_blind m → (∀ a, files_blind (k a)) → files_blind (bind m k).
Proof.
  intros Hm Hk st. destruct (Hm st) as (r & st1 & ws & evs & Hd & Ht & Hrun).
  destruct r as [e|a].
  - exists (inl e), st1, ws, evs. split; [done|]. split; [done|].
    intros F. unfold bind. by rewrite Hrun.
  - destruct (Hk a st1) as (r2 & st2 & ws2 & evs2 & Hd2 & Ht2 & Hrun2).
    exists r2, st2, (ws ++ ws2), (evs ++ evs2). split; [congruence|].
    split; [by rewrite Ht2, Ht, app_assoc|].
    intros F. unfold bind. by rewrite Hrun, Hrun2, apply_writes_app.
Qed.

Lemma blind_imwrite (fname : string) (img : Frame) :
  files_blind (cv2_imwrite w fname img).
Proof.
  intros st. unfold cv2_imwrite, bind, get_fs, emit, set_fs, raise, ret. simpl.
  destruct (write_outcome w (dirs (st_fs st)) fname) eqn:Hw.
  - by exists (inr true), (log [EvImwrite fname img Written] st),
      [(fname, img)], [EvImwrite fname img Written].
  - by exists (inr false), (log [EvImwrite fname img Refused] st), [],
      [EvImwrite fname img Refused].
  - by exists (inl Py.CvError), (log [EvImwrite fname img Crashed] st), [],
      [EvImwrite fname img Crashed].
Qed.

Lemma blind_capture_loop (cap : Stream) (dir : string) (n : nat) (u : Z) :
  files_blind (capture_loop w cap dir n u).
Proof.
  revert u. induction n as [|n IH]; intros u; simpl.
  - apply blind_ret.
  - apply blind_bind; [apply blind_cap_set_pos|]. intros _.
    apply blind_bind; [apply blind_cap_read|]. intros [f|].
    + apply blind_bind; [apply blind_imwrite|]. intros _. apply IH.
    + apply blind_ret.
Qed.

Lemma blind_sample (cap : Stream) (d : Py.float) (dir : string)
    (s : Z) (e : option Z) :
  files_blind (sample w cap d dir s e).
Proof.
  unfold sample.
  apply blind_bind; [apply blind_lift|]. intros range.
  apply blind_bind; [apply blind_capture_loop|]. intros exit.
  apply blind_bind; [apply blind_cap_release|]. intros _. apply blind_ret.
Qed.

Lemma blind_acquire (url : string) : files_blind (acquire w url).
Proof.
  unfold acquire, resolve_stream_url, open_capture, measure.
  apply blind_bind.
  { apply blind_bind; [apply blind_emit|]. intros _.
    destruct (extract_info w url) as [[su|]|];
      [apply blind_ret | apply blind_raise | apply blind_raise]. }
  intros su. apply blind_bind.
  { apply blind_bind; [apply blind_emit|]. intros _.
    destruct (negb _); [apply blind_raise | apply blind_ret]. }
  intros cap. apply blind_bind; [|intros; apply blind_ret].
  apply blind_bind; [apply blind_lift|]. intros fc.
  apply blind_bind; [apply blind_emit|]. intros _. apply blind_lift.
Qed.

(** Everything after the creation of the directory. *)
Lemma blind_after_makedirs (url dir : string) (s : Z) (e : option Z) :
  files_blind (do m <- acquire w url; sample w m.1 m.2 dir s e).
Proof.
  apply blind_bind; [apply blind_acquire|]. intros m. apply blind_sample.
Qed.

(** A blind computation keeps the directories and what the trace held, and
    run again on the files it left it returns the same and leaves the same. *)
Lemma blind_frame {A} (m : M A) (st : State) r st' :
  files_blind m → m st = (r, st') →
  dirs (st_fs st') = dirs (st_fs st) ∧ ∃ evs, st_trace st' = st_trace st ++ evs.
Proof.
  intros Hm H. destruct (Hm st) as (r0 & st1 & ws & evs & Hd & Ht & Hrun).
  specialize (Hrun (files (st_fs st))). rewrite set_files_id, H in Hrun.
  simplify_eq. split; [done|]. by exists evs.
Qed.

Lemma blind_again {A} (m : M A) (st : State) r st' :
  files_blind m → m st = (r, st') →
  m (set_files (files (st_fs st')) st) = (r, st').
Proof.
  intros Hm H. destruct (Hm st) as (r0 & st1 & ws & evs & Hd & Ht & Hrun).
  pose proof (Hrun (files (st_fs st))) as H0.
  rewrite set_files_id, H in H0. simplify_eq.
  rewrite Hrun. simpl. by rewrite apply_writes_idem.
Qed.

End Blind.

(** * The claims *)

Section Sampling.
Context (w : World).

Lemma sample_range (cap : Stream) (d : Py.float) (dir : string)
    (s : Z) (e : option Z) (a b : Z) (st : State) :
  adjust_range s e d = inr (a, b) →
  sample w cap d dir s e st =
  match capture_loop w cap dir (range_len a (b + 1)) a st with
  | (inl x, st') => (inl x, st')
  | (inr exit, st') => (inr exit, (cap_release st').2)
  end.
Proof.
  intros H. unfold sample, bind, lift, ret. rewrite H. simpl.
  destruct (capture_loop _ _ _ _ _ _) as [[x|exit] st']; done.
Qed.

Lemma sample_rejected (cap : Stream) (d : Py.float) (dir : string)
    (s : Z) (e : option Z) (x : Py.Exn) (st : State) :
  adjust_range s e d = inl x → sample w cap d dir s e st = (inl x, st).
Proof. intros H. unfold sample, bind, lift. by rewrite H. Qed.

Lemma adjust_range_inv (s : Z) (e : option Z) (d : Py.float) (a b : Z) :
  adjust_range s e d = inr (a, b) →
  a = Z.max 0 s ∧ clamp_end e d = inr b ∧ a ≤ b.
Proof.
  unfold adjust_range. destruct (clamp_end e d) as [x|b']; [done|].
  destruct (Z.gtb_spec (Z.max 0 s) b'); [done|]. intros [= <- <-].
  repeat split; try done; lia.
Qed.

End Sampling.

(** C1, at an inverted range: the stream is opened, [ValueError] is raised
    by the range check, and [cap.release()] has not run when the
    procedure is left. *)
Theorem inverted_range_leaves_stream_open :
  let r := run (world_of clip_20s all_written) video "frames" 8 (Some 3) empty_fs in
  r.1 = inl Py.ValueError ∧
  EvVideoCapture "https://cdn.example/video.mp4" ∈ st_trace r.2 ∧
  (EvRelease ∉ st_trace r.2) ∧
  st_released r.2 = 0%nat.
Proof.
  cbv zeta. split; [by vm_compute|]. split; [|split; [|by vm_compute]].
  - apply (bool_decide_unpack _). by vm_compute.
  - apply (bool_decide_unpack _). by vm_compute.
Qed.

Lemma release_skipped_on_error : ¬ released_on_every_path.
Proof.
  intros H.
  specialize (H (world_of clip_20s all_written) video "frames" 8 (Some 3)
                empty_fs "https://cdn.example/video.mp4" eq_refl eq_refl).
  assert (st_released (run (world_of clip_20s all_written) video "frames" 8
                         (Some 3) empty_fs).2 = 0%nat) as H0 by by vm_compute.
  rewrite H in H0; [done|]. apply (bool_decide_unpack _). by vm_compute.
Qed.

(** ** C2: a zero frame rate *)

(** C2, as the code has it: when the opened stream reports a frame rate
    of zero, the quotient [frame_count / fps] is evaluated all the same
    and it is this division that raises; the run ends with
    [ZeroDivisionError] right after it, nothing is sampled or written and
    the stream is not released. *)
Theorem zero_rate_division_raises (w : World) (url dir : string) (s : Z)
    (e : option Z) (fs : FS) (st0 : State) (su : string) (fc : Z) (ffc : Py.float) :
  os_makedirs w dir true (initial fs) = (inr tt, st0) →
  extract_info w url = Some (Some su) →
  isOpened (VideoCapture w su) = true →
  Py.int (CAP_PROP_FRAME_COUNT (VideoCapture w su)) = inr fc →
  Py.float_of_int fc = inr ffc →
  Py.is_zero (CAP_PROP_FPS (VideoCapture w su)) = true →
  let r := run w url dir s e fs in
  r.1 = inl Py.ZeroDivisionError ∧
  st_trace r.2 = [EvMakedirs dir; EvExtractInfo url; EvVideoCapture su;
                  EvDivide fc (CAP_PROP_FPS (VideoCapture w su))] ∧
  files (st_fs r.2) = files fs ∧
  st_released r.2 = 0%nat.
Proof.
  intros Hmk Hinfo Hopen Hfc Hconv Hzero.
  pose proof (os_makedirs_spec _ _ _ _ _ Hmk) as (Hst0 & Hfiles & _).
  unfold run, capture_every_second, bind. rewrite Hmk.
  unfold acquire, resolve_stream_url, open_capture, measure, bind, emit,
    lift, ret, raise. simpl.
  rewrite Hinfo. simpl. rewrite Hopen. simpl. rewrite Hfc. simpl.
  unfold Py.truediv. rewrite Hconv, Hzero. simpl.
  rewrite Hst0. simpl. done.
Qed.

Lemma zero_rate_division_raises_witness :
  let r := run (world_of clip_no_rate all_written) video "frames" 0 None empty_fs in
  r.1 = inl Py.ZeroDivisionError ∧
  st_trace r.2 = [EvMakedirs "frames"; EvExtractInfo video;
                  EvVideoCapture "https://cdn.example/video.mp4";
                  EvDivide 150 (float_lit 0)] ∧
  files (st_fs r.2) = files empty_fs ∧
  st_released r.2 = 0%nat.
Proof.
  eapply (zero_rate_division_raises (world_of clip_no_rate all_written) video
            "frames" 0 None empty_fs _ "https://cdn.example/video.mp4" 150).
  - vm_compute. reflexivity.
  - reflexivity.
  - reflexivity.
  - vm_compute. reflexivity.
  - vm_compute. reflexivity.
  - reflexivity.
Defined.

(** The claim as worded (no division with a zero rate) fails. *)
Lemma division_not_guarded : ¬ division_guarded.
Proof.
  intros H.
  apply (H (world_of clip_no_rate all_written) video "frames" 0 None empty_fs
           "https://cdn.example/video.mp4" eq_refl eq_refl 150 (float_lit 0)).
  apply (bool_decide_unpack _). by vm_compute.
Qed.

(** ** C3: an inverted range *)

(** C3: when the start second, clamped at 0, exceeds the clamped end
    second, the run ends with [ValueError] (the range error) and hands
    nothing to [cv2.imwrite]: the files are those it started with. *)
Theorem inverted_range_rejected (w : World) (url dir : string) (s : Z)
    (e : option Z) (fs : FS) (cap : Stream) (d : Py.float) (st : State) (b : Z) :
  prepare w url dir (initial fs) = (inr (cap, d), st) →
  clamp_end e d = inr b →
  Z.max 0 s > b →
  let r := run w url dir s e fs in
  r.1 = inl Py.ValueError ∧
  files (st_fs r.2) = files fs ∧
  write_attempts (st_trace r.2) = [].
Proof.
  intros Hprep Hend Hinv. cbv zeta.
  rewrite (run_sampling _ _ _ _ _ _ _ _ _ Hprep).
  assert (adjust_range s e d = inl Py.ValueError) as Hadj.
  { unfold adjust_range. rewrite Hend.
    destruct (Z.gtb_spec (Z.max 0 s) b); [done|lia]. }
  rewrite (sample_rejected _ _ _ _ _ _ _ _ Hadj). simpl.
  apply prepare_spec in Hprep
    as (su & fc & _ & _ & _ & _ & _ & -> & -> & _). done.
Qed.

Lemma inverted_range_rejected_witness :
  let r := run (world_of clip_20s all_written) video "frames" 8 (Some 3) empty_fs in
  r.1 = inl Py.ValueError ∧
  files (st_fs r.2) = files empty_fs ∧
  write_attempts (st_trace r.2) = [].
Proof.
  eapply (inverted_range_rejected (world_of clip_20s all_written) video
            "frames" 8 (Some 3) empty_fs _ _ _ 3).
  - vm_compute. reflexivity.
  - vm_compute. reflexivity.
  - lia.
Defined.

(** ** C5 and C6: the sampled range *)


(** An end second that does not exceed the floor of the duration is kept
    as it is. *)
Theorem end_within_duration_kept (n : Z) (d : Py.float) (fl : Z) :
  floor_float d = Some fl → n ≤ fl → clamp_end (Some n) d = inr n.
Proof.
  intros Hfl Hn. simpl. rewrite (int_gt_float_floor d fl n Hfl).
  by destruct (Z.ltb_spec fl n); [lia|].
Qed.

Lemma end_within_duration_kept_witness : clamp_end (Some 3) duration_5s = inr 3.
Proof.
  apply (end_within_duration_kept 3 duration_5s 5).
  - vm_compute. reflexivity.
  - lia.
Defined.


(** ** The shape of a run that reaches the loop *)

Section Shape.
Context (w : World) (url dir : string) (s : Z) (e : option Z) (fs : FS).
Context (cap : Stream) (d : Py.float) (st : State) (a b : Z).
Hypothesis Hprep : prepare w url dir (initial fs) = (inr (cap, d), st).
Hypothesis Hadj : adjust_range s e d = inr (a, b).

Local Abbreviation good v :=
  (is_Some (frame_at cap (v * 1000)) ∧
   write_outcome w (dirs (st_fs st)) (frame_path dir v) ≠ Crashed).

Lemma range_len_pos : range_len a (b + 1) = S (Z.to_nat (b - a)).
Proof. apply adjust_range_inv in Hadj as (_ & _ & ?). unfold range_len. lia. Qed.

(** The loop processes [k] consecutive seconds from [a] on, at least one,
    and is left in one of three ways. *)
Lemma run_shape :
  ∃ k, (1 ≤ k ≤ range_len a (b + 1))%nat ∧
    let st' := process w cap dir (seconds a k) st in
    ((run w url dir s e fs = (inr Exhausted, (cap_release st').2) ∧
      k = range_len a (b + 1) ∧ ∀ v, v ∈ seconds a k → good v) ∨
     (∃ j, k = S j ∧ (∀ v, v ∈ seconds a j → good v) ∧
        ((run w url dir s e fs =
            (inr (StoppedEarly (a + Z.of_nat j)), (cap_release st').2) ∧
          frame_at cap ((a + Z.of_nat j) * 1000) = None) ∨
         (run w url dir s e fs = (inl Py.CvError, st') ∧
          is_Some (frame_at cap ((a + Z.of_nat j) * 1000)) ∧
          write_outcome w (dirs (st_fs st))
            (frame_path dir (a + Z.of_nat j)) = Crashed)))).
Proof.
  rewrite (run_sampling _ _ _ _ _ _ _ _ _ Hprep), (sample_range _ _ _ _ _ _ _ _ _ Hadj).
  destruct (capture_loop w cap dir (range_len a (b + 1)) a st) as [r st'] eqn:Hloop.
  apply capture_loop_inv in Hloop as (k & Hk & -> & Hmode).
  exists k. pose proof range_len_pos as Hlen.
  destruct Hmode as [(-> & -> & Hall)|(j & -> & Hall & [[-> Hnone]|(-> & Hsome & Hcr)])].
  - split; [lia|]. left. done.
  - split; [lia|]. right. exists j. split; [done|]. split; [done|]. by left.
  - split; [lia|]. right. exists j. split; [done|]. split; [done|]. by right.
Qed.

End Shape.

Lemma trace_after_release (st : State) :
  st_trace (cap_release st).2 = st_trace st ++ [EvRelease].
Proof. reflexivity. Qed.

Lemma fs_after_release (st : State) : st_fs (cap_release st).2 = st_fs st.
Proof. reflexivity. Qed.

Lemma released_after_release (st : State) :
  st_released (cap_release st).2 = S (st_released st).
Proof. reflexivity. Qed.

(** [cv2.imwrite] is called once for each processed second that decodes. *)
Lemma write_attempts_app (l1 l2 : list Event) :
  write_attempts (l1 ++ l2) = write_attempts l1 ++ write_attempts l2.
Proof. apply omap_app. Qed.

Lemma artifacts_app (l1 l2 : list Event) :
  artifacts (l1 ++ l2) = artifacts l1 ++ artifacts l2.
Proof. apply omap_app. Qed.

Lemma write_attempts_seconds (w : World) (ds : gset string) (cap : Stream)
    (dir : string) (us : list Z) :
  (∀ u, u ∈ us → is_Some (frame_at cap (u * 1000))) →
  write_attempts (flat_map (second_events w ds cap dir) us) =
  map (frame_path dir) us.
Proof.
  induction us as [|u us IH]; intros Hdec; [done|].
  simpl. rewrite write_attempts_app, IH by (intros v Hv; apply Hdec; by right).
  unfold second_events. destruct (Hdec u) as [f ->]; [by left|]. done.
Qed.

Lemma artifacts_seconds (w : World) (ds : gset string) (cap : Stream)
    (dir : string) (us : list Z) :
  (∀ u, u ∈ us → is_Some (frame_at cap (u * 1000))) →
  artifacts (flat_map (second_events w ds cap dir) us) =
  map (frame_path dir)
    (filter (λ u, write_outcome w ds (frame_path dir u) = Written) us).
Proof.
  induction us as [|u us IH]; intros Hdec; [done|].
  simpl. rewrite artifacts_app, IH by (intros v Hv; apply Hdec; by right).
  unfold second_events. destruct (Hdec u) as [f ->]; [by left|].
  rewrite filter_cons. case_decide as Hw.
  - rewrite Hw. done.
  - simpl. destruct (write_outcome _ _ _); done.
Qed.

(** The positions sought are those of the processed seconds. *)
Lemma seek_in_seconds (w : World) (ds : gset string) (cap : Stream)
    (dir : string) (us : list Z) (msec : Z) :
  EvSeek msec ∈ flat_map (second_events w ds cap dir) us ↔
  ∃ u, u ∈ us ∧ msec = u * 1000.
Proof.
  rewrite list_elem_of_In, in_flat_map. split.
  - intros (u & Hu & Hin). exists u. split; [by apply list_elem_of_In|].
    unfold second_events in Hin.
    destruct (frame_at cap (u * 1000)); simpl in Hin;
      destruct Hin as [H|[H|H]]; try done; try (by simplify_eq);
      destruct H as [H|H]; done.
  - intros (u & Hu & ->). exists u. split; [by apply list_elem_of_In|].
    unfold second_events. destruct (frame_at cap (u * 1000)); by left.
Qed.



(** ** C4: a second that does not decode *)

(** C4: when the seconds before [t] decode, second [t] of the range does
    not, and no write before [t] raises, the loop is left at [t] and the
    procedure returns normally after releasing the stream.  The frames
    handed to [cv2.imwrite] are those of the seconds before [t], in order;
    each one that was stored is in its file; the files of second [t] and of
    the later seconds, and every other file, are as they were. *)
Theorem decode_gap_stops_early (w : World) (url dir : string) (s : Z)
    (e : option Z) (fs : FS) (cap : Stream) (d : Py.float) (st : State)
    (a b t : Z) :
  prepare w url dir (initial fs) = (inr (cap, d), st) →
  adjust_range s e d = inr (a, b) →
  a ≤ t ≤ b →
  (∀ u, a ≤ u < t → is_Some (frame_at cap (u * 1000))) →
  frame_at cap (t * 1000) = None →
  (∀ u, a ≤ u < t →
        write_outcome w (dirs (st_fs st)) (frame_path dir u) ≠ Crashed) →
  let r := run w url dir s e fs in
  r.1 = inr (StoppedEarly t) ∧
  st_released r.2 = 1%nat ∧
  write_attempts (st_trace r.2) =
    map (frame_path dir) (seconds a (Z.to_nat (t - a))) ∧
  (∀ u, a ≤ u < t →
        write_outcome w (dirs (st_fs st)) (frame_path dir u) = Written →
        files (st_fs r.2) !! frame_path dir u = frame_at cap (u * 1000)) ∧
  (∀ u, t ≤ u →
        files (st_fs r.2) !! frame_path dir u = files fs !! frame_path dir u) ∧
  (∀ p, (∀ u, a ≤ u < t → p ≠ frame_path dir u) →
        files (st_fs r.2) !! p = files fs !! p).
Proof.
  intros Hprep Hadj Ht Hdec Hgap Hnocrash. cbv zeta.
  pose proof (adjust_range_inv _ _ _ _ _ Hadj) as (Ha & _ & Hab).
  destruct (run_shape w url dir s e fs cap d st a b Hprep Hadj)
    as (k & Hk & Hmode). cbv zeta in Hmode.
  rewrite (range_len_pos s e d a b Hadj) in Hk.
  assert (∃ j, Z.of_nat j = t - a ∧
            run w url dir s e fs =
            (inr (StoppedEarly t),
             (cap_release (process w cap dir (seconds a (S j)) st)).2))
    as (j & Hj & Hrun).
  { destruct Hmode as [(_ & -> & Hall)|(j & -> & Hall & [[Hrun Hnone]|(_ & Hsome & Hcr)])].
    - destruct (Hall t) as [[f Hf] _]; [|congruence].
      apply elem_of_seconds. rewrite (range_len_pos s e d a b Hadj). lia.
    - destruct (Z.lt_trichotomy (a + Z.of_nat j) t) as [Hlt|[Heq|Hgt]].
      + destruct (Hdec (a + Z.of_nat j)) as [f Hf]; [lia|congruence].
      + exists j. split; [lia|]. by rewrite <- Heq.
      + destruct (Hall t) as [[f Hf] _]; [|congruence].
        apply elem_of_seconds. lia.
    - destruct (Z.lt_trichotomy (a + Z.of_nat j) t) as [Hlt|[Heq|Hgt]].
      + by destruct (Hnocrash (a + Z.of_nat j)); [lia|].
      + rewrite Heq, Hgap in Hsome. by destruct Hsome.
      + destruct (Hall t) as [[f Hf] _]; [|congruence].
        apply elem_of_seconds. lia. }
  rewrite Hrun. cbn [fst snd].
  rewrite released_after_release, process_released, trace_after_release,
    fs_after_release, process_trace.
  assert (Z.to_nat (t - a) = j) as -> by lia.
  rewrite seconds_snoc, process_snoc.
  assert (a + Z.of_nat j = t) as -> by lia.
  assert (∀ X, files (st_fs (after_second w cap dir t X)) = files (st_fs X))
    as Hbody by (intros X; unfold after_second; simpl; by rewrite Hgap).
  rewrite Hbody.
  apply prepare_spec in Hprep
    as (su & fc & _ & _ & _ & _ & _ & Htr & Hfiles & _ & _ & Hrel).
  assert (∀ v, v ∈ seconds a j → a ≤ v < t) as Hsec
    by (intros v Hv%elem_of_seconds; lia).
  split; [done|]. split; [by rewrite Hrel|]. split; [|split; [|split]].
  - rewrite flat_map_app, !write_attempts_app, Htr.
    rewrite write_attempts_seconds by (intros v Hv; apply Hdec; by apply Hsec).
    simpl. unfold second_events. rewrite Hgap. simpl. by rewrite !app_nil_r.
  - intros u Hu Hw.
    rewrite process_files_at; [| apply NoDup_seconds
                               | intros v Hv%elem_of_seconds; lia
                               | apply elem_of_seconds; lia].
    destruct (Hdec u Hu) as [f ->]. by rewrite decide_True.
  - intros u Hu. rewrite process_files_other; [by rewrite Hfiles|].
    intros v Hv%Hsec Heq. apply frame_path_inj in Heq; lia.
  - intros p Hp. rewrite process_files_other; [by rewrite Hfiles|].
    intros v Hv%Hsec. by apply Hp.
Qed.

Lemma decode_gap_stops_early_witness :
  let w := world_of clip_gap_at_7 all_written in
  let r := run w video "frames" 0 (Some 10) empty_fs in
  r.1 = inr (StoppedEarly 7) ∧
  st_released r.2 = 1%nat ∧
  write_attempts (st_trace r.2) =
    map (frame_path "frames") (seconds 0 (Z.to_nat (7 - 0))) ∧
  (∀ u, 0 ≤ u < 7 →
        write_outcome w (dirs (st_fs (prepared 600 30)))
          (frame_path "frames" u) = Written →
        files (st_fs r.2) !! frame_path "frames" u =
        frame_at clip_gap_at_7 (u * 1000)) ∧
  (∀ u, 7 ≤ u →
        files (st_fs r.2) !! frame_path "frames" u =
        files empty_fs !! frame_path "frames" u) ∧
  (∀ p, (∀ u, 0 ≤ u < 7 → p ≠ frame_path "frames" u) →
        files (st_fs r.2) !! p = files empty_fs !! p).
Proof.
  refine (decode_gap_stops_early (world_of clip_gap_at_7 all_written) video
            "frames" 0 (Some 10) empty_fs clip_gap_at_7 _ (prepared 600 30)
            0 10 7 _ _ _ _ _ _).
  - vm_compute. reflexivity.
  - vm_compute. reflexivity.
  - lia.
  - intros u Hu. unfold clip_gap_at_7, clip. simpl.
    destruct (Z.leb_spec 0 (u * 1000)); [|lia].
    destruct (Z.ltb_spec (u * 1000) 7000); [|lia]. simpl. eauto.
  - reflexivity.
  - intros u Hu. unfold write_outcome. simpl. by case_bool_decide.
Defined.

(** Scenario D: a gap at second 7 of the range [0, 10] leaves exactly
    [frame_0000.jpg] ... [frame_0006.jpg] and no error. *)
Example scenario_D :
  let r := run (world_of clip_gap_at_7 all_written) video "frames" 0 (Some 10)
             empty_fs in
  r.1 = inr (StoppedEarly 7) ∧
  elements (dom (files (st_fs r.2))) ≡ₚ
    ["frames/frame_0000.jpg"; "frames/frame_0001.jpg"; "frames/frame_0002.jpg";
     "frames/frame_0003.jpg"; "frames/frame_0004.jpg"; "frames/frame_0005.jpg";
     "frames/frame_0006.jpg"].
Proof.
  cbv zeta. split; [by vm_compute|].
  apply (bool_decide_unpack _). by vm_compute.
Qed.

(** ** C7: order of the writes *)

(** C7, as the code has it: in a run that returns, the loop processed [k]
    consecutive seconds from the clamped start on.  For each, in increasing
    order and with none left out, it sought [u * 1000] ms, decoded a
    frame and handed it to [cv2.imwrite] under
    [<output_dir>/frame_<u on 4 digits>.jpg]; an early stop adds the seek and
    the failed read of the second it stopped at.  The artifacts stored are
    those of the processed seconds whose write succeeded, in the same order:
    a second whose write is refused is missing among them. *)
Theorem writes_follow_the_seconds (w : World) (url dir : string) (s : Z)
    (e : option Z) (fs : FS) (exit : LoopExit) :
  (run w url dir s e fs).1 = inr exit →
  ∃ cap d st a b k,
    prepare w url dir (initial fs) = (inr (cap, d), st) ∧
    adjust_range s e d = inr (a, b) ∧ 0 ≤ a ∧
    (∀ u, u ∈ seconds a k → is_Some (frame_at cap (u * 1000))) ∧
    match exit with
    | Exhausted => a + Z.of_nat k = b + 1
    | StoppedEarly t =>
        t = a + Z.of_nat k ∧ t ≤ b ∧ frame_at cap (t * 1000) = None
    end ∧
    st_trace (run w url dir s e fs).2 =
      st_trace st ++
      flat_map (λ u,
        [EvSeek (u * 1000); EvRead true;
         EvImwrite (path_join dir ("frame_" +:+ Py.format_04d u +:+ ".jpg"))
           (default [] (frame_at cap (u * 1000)))
           (write_outcome w (dirs (st_fs st)) (frame_path dir u))])
        (seconds a k) ++
      match exit with
      | Exhausted => []
      | StoppedEarly t => [EvSeek (t * 1000); EvRead false]
      end ++ [EvRelease] ∧
    write_attempts (st_trace (run w url dir s e fs).2) =
      map (frame_path dir) (seconds a k) ∧
    artifacts (st_trace (run w url dir s e fs).2) =
      map (frame_path dir)
        (filter (λ u, write_outcome w (dirs (st_fs st)) (frame_path dir u)
                      = Written) (seconds a k)).
Proof.
  intros Hret. pose proof Hret as Hret'. rewrite run_prepare in Hret'.
  destruct (prepare w url dir (initial fs)) as [[x|[cap d]] st] eqn:Hprep;
    [done|]. simpl in Hret'.
  destruct (adjust_range s e d) as [x|[a b]] eqn:Hadj.
  { by rewrite (sample_rejected _ _ _ _ _ _ _ _ Hadj) in Hret'. }
  clear Hret'.
  pose proof (adjust_range_inv _ _ _ _ _ Hadj) as (Ha & _ & Hab).
  destruct (run_shape w url dir s e fs cap d st a b Hprep Hadj)
    as (k & Hk & Hmode). cbv zeta in Hmode.
  rewrite (range_len_pos s e d a b Hadj) in Hk.
  pose proof (prepare_spec _ _ _ _ _ _ _ Hprep)
    as (su & fc & _ & _ & _ & _ & _ & Htr & _).
  assert (∀ us, (∀ u, u ∈ us → is_Some (frame_at cap (u * 1000))) →
    flat_map (second_events w (dirs (st_fs st)) cap dir) us =
    flat_map (λ u,
        [EvSeek (u * 1000); EvRead true;
         EvImwrite (path_join dir ("frame_" +:+ Py.format_04d u +:+ ".jpg"))
           (default [] (frame_at cap (u * 1000)))
           (write_outcome w (dirs (st_fs st)) (frame_path dir u))]) us)
    as Hevents.
  { induction us as [|u us IH]; intros Hdec; [done|]. simpl.
    rewrite IH by (intros v Hv; apply Hdec; by right). f_equal.
    unfold second_events. destruct (Hdec u) as [f ->]; [by left|]. done. }
  assert (write_attempts (st_trace st) = [] ∧ artifacts (st_trace st) = [])
    as [Hw0 Ha0] by (by rewrite Htr).
  revert Hret. destruct Hmode
    as [(Hrun & -> & Hall)|(j & -> & Hall & [[Hrun Hnone]|(Hrun & _)])];
    rewrite Hrun; cbn [fst snd]; intros [= <-]; exists cap, d, st, a, b.
  - exists (range_len a (b + 1)).
    assert (∀ u, u ∈ seconds a (range_len a (b + 1)) →
                 is_Some (frame_at cap (u * 1000))) as Hdec
      by (intros u Hu; by destruct (Hall u Hu)).
    rewrite trace_after_release, process_trace.
    rewrite !write_attempts_app, !artifacts_app, Hw0, Ha0.
    rewrite write_attempts_seconds, artifacts_seconds, <- Hevents by done.
    rewrite (range_len_pos s e d a b Hadj) at 1.
    repeat split; try done; try lia.
    all: simpl; rewrite ?app_nil_r, <- ?app_assoc; done.
  - exists j.
    assert (∀ u, u ∈ seconds a j → is_Some (frame_at cap (u * 1000))) as Hdec
      by (intros u Hu; by destruct (Hall u Hu)).
    rewrite trace_after_release, process_trace, seconds_snoc, flat_map_app.
    rewrite !write_attempts_app, !artifacts_app, Hw0, Ha0.
    rewrite write_attempts_seconds, artifacts_seconds, <- Hevents by done.
    simpl. unfold second_events. rewrite Hnone. simpl.
    repeat split; try done; try lia.
    all: rewrite ?app_nil_r, <- ?app_assoc; done.
Qed.

Lemma writes_follow_the_seconds_witness :
  let w := world_of clip_20s all_written in
  ∃ cap d st a b k,
    prepare w video "frames" (initial empty_fs) = (inr (cap, d), st) ∧
    adjust_range 10 (Some 12) d = inr (a, b) ∧ 0 ≤ a ∧
    (∀ u, u ∈ seconds a k → is_Some (frame_at cap (u * 1000))) ∧
    a + Z.of_nat k = b + 1 ∧
    st_trace (run w video "frames" 10 (Some 12) empty_fs).2 =
      st_trace st ++
      flat_map (λ u,
        [EvSeek (u * 1000); EvRead true;
         EvImwrite (path_join "frames" ("frame_" +:+ Py.format_04d u +:+ ".jpg"))
           (default [] (frame_at cap (u * 1000)))
           (write_outcome w (dirs (st_fs st)) (frame_path "frames" u))])
        (seconds a k) ++ [] ++ [EvRelease] ∧
    write_attempts (st_trace (run w video "frames" 10 (Some 12) empty_fs).2) =
      map (frame_path "frames") (seconds a k) ∧
    artifacts (st_trace (run w video "frames" 10 (Some 12) empty_fs).2) =
      map (frame_path "frames")
        (filter (λ u, write_outcome w (dirs (st_fs st)) (frame_path "frames" u)
                      = Written) (seconds a k)).
Proof.
  refine (writes_follow_the_seconds (world_of clip_20s all_written) video
            "frames" 10 (Some 12) empty_fs Exhausted _).
  vm_compute. reflexivity.
Defined.

(** Scenario A: seconds 10 to 12 of a 20-second stream. *)
Example scenario_A :
  let r := run (world_of clip_20s all_written) video "frames" 10 (Some 12)
             empty_fs in
  r.1 = inr Exhausted ∧
  artifacts (st_trace r.2) =
    ["frames/frame_0010.jpg"; "frames/frame_0011.jpg"; "frames/frame_0012.jpg"] ∧
  elements (dom (files (st_fs r.2))) ≡ₚ
    ["frames/frame_0010.jpg"; "frames/frame_0011.jpg"; "frames/frame_0012.jpg"].
Proof.
  cbv zeta. split; [by vm_compute|]. split; [by vm_compute|].
  apply (bool_decide_unpack _). by vm_compute.
Qed.

(** Scenario B: no end second against a 5-second stream of 150 frames.  The
    range is 0 to 5, but position 5000 ms is past the last frame: the run
    stops early at second 5 and leaves the five files of seconds 0 to 4. *)
Example scenario_B :
  let r := run (world_of clip_5s all_written) video "frames" 0 None empty_fs in
  r.1 = inr (StoppedEarly 5) ∧
  artifacts (st_trace r.2) =
    ["frames/frame_0000.jpg"; "frames/frame_0001.jpg"; "frames/frame_0002.jpg";
     "frames/frame_0003.jpg"; "frames/frame_0004.jpg"] ∧
  elements (dom (files (st_fs r.2))) ≡ₚ
    ["frames/frame_0000.jpg"; "frames/frame_0001.jpg"; "frames/frame_0002.jpg";
     "frames/frame_0003.jpg"; "frames/frame_0004.jpg"].
Proof.
  cbv zeta. split; [by vm_compute|]. split; [by vm_compute|].
  apply (bool_decide_unpack _). by vm_compute.
Qed.

(** The claim as worded (no second skipped between two stored artifacts)
    fails when the write of second 1 is refused: seconds 0 and 2 are
    stored, second 1 is not, and the run returns normally. *)
Lemma refused_write_skips_a_second : ¬ no_second_skipped.
Proof.
  intros H.
  specialize (H (world_of clip_20s second_1_refused) video "frames" 0 (Some 2)
                empty_fs Exhausted).
  specialize (H ltac:(by vm_compute) 0 1 2 ltac:(lia)).
  assert (frame_path "frames" 1 ∉
          artifacts (st_trace (run (world_of clip_20s second_1_refused) video
                                 "frames" 0 (Some 2) empty_fs).2)) as Hnot.
  { apply (bool_decide_unpack _). by vm_compute. }
  apply Hnot, H; apply (bool_decide_unpack _); by vm_compute.
Qed.

(** ** C8: a write that fails *)

(** C8, as the code has it: the flag returned by [cv2.imwrite] is dropped.
    When the write of second [t] is refused (nothing stored, [False]
    returned) the run does not abort: the file of [t] is as it was, the
    next second of the range is processed, and after the last second the
    procedure returns normally.  Only a write that raises ends the run:
    with [cv2.error], no later second processed. *)
Theorem refused_write_is_ignored (w : World) (url dir : string) (s : Z)
    (e : option Z) (fs : FS) (cap : Stream) (d : Py.float) (st : State)
    (a b t : Z) :
  prepare w url dir (initial fs) = (inr (cap, d), st) →
  adjust_range s e d = inr (a, b) →
  a ≤ t ≤ b →
  (∀ u, a ≤ u ≤ t → is_Some (frame_at cap (u * 1000))) →
  (∀ u, a ≤ u < t →
        write_outcome w (dirs (st_fs st)) (frame_path dir u) ≠ Crashed) →
  let r := run w url dir s e fs in
  match write_outcome w (dirs (st_fs st)) (frame_path dir t) with
  | Crashed =>
      r.1 = inl Py.CvError ∧ st_released r.2 = 0%nat ∧
      ∀ u, t < u → EvSeek (u * 1000) ∉ st_trace r.2
  | Refused =>
      (t < b → EvSeek ((t + 1) * 1000) ∈ st_trace r.2) ∧
      (t = b → r.1 = inr Exhausted) ∧
      files (st_fs r.2) !! frame_path dir t = files fs !! frame_path dir t
  | Written =>
      (t < b → EvSeek ((t + 1) * 1000) ∈ st_trace r.2) ∧
      (t = b → r.1 = inr Exhausted) ∧
      files (st_fs r.2) !! frame_path dir t = frame_at cap (t * 1000)
  end.
Proof.
  intros Hprep Hadj Ht Hdec Hnocrash. cbv zeta.
  pose proof (adjust_range_inv _ _ _ _ _ Hadj) as (Ha & _ & Hab).
  destruct (run_shape w url dir s e fs cap d st a b Hprep Hadj)
    as (k & Hk & Hmode). cbv zeta in Hmode.
  pose proof (range_len_pos s e d a b Hadj) as Hlen. rewrite Hlen in Hk.
  pose proof (prepare_spec _ _ _ _ _ _ _ Hprep)
    as (su & fc & _ & _ & _ & _ & _ & Htr & Hfiles & _ & _ & Hrel).
  set (st' := process w cap dir (seconds a k) st) in *.
  (* what the three ways of leaving the loop have in common *)
  assert (∃ rel tail,
            st_fs (run w url dir s e fs).2 = st_fs st' ∧
            st_released (run w url dir s e fs).2 = rel ∧
            st_trace (run w url dir s e fs).2 = st_trace st' ++ tail ∧
            (∀ msec, EvSeek msec ∉ tail) ∧
            ((run w url dir s e fs).1 = inr Exhausted ∧
             k = S (Z.to_nat (b - a)) ∧
             (∀ v, a ≤ v ≤ b →
                write_outcome w (dirs (st_fs st)) (frame_path dir v) ≠ Crashed) ∨
             ∃ j, k = S j ∧
               (∀ v, a ≤ v < a + Z.of_nat j →
                  is_Some (frame_at cap (v * 1000)) ∧
                  write_outcome w (dirs (st_fs st)) (frame_path dir v) ≠ Crashed) ∧
               (frame_at cap ((a + Z.of_nat j) * 1000) = None ∨
                (run w url dir s e fs).1 = inl Py.CvError ∧ rel = 0%nat ∧
                write_outcome w (dirs (st_fs st))
                  (frame_path dir (a + Z.of_nat j)) = Crashed)))
    as (rel & tail & Hfs & Hreleased & Htrace & Htail & Hway).
  { destruct Hmode
      as [(Hrun & Hkn & Hall)|(j & Hkj & Hall & [[Hrun Hnone]|(Hrun & _ & Hcr)])];
      rewrite Hrun; cbn [fst snd].
    - exists 1%nat, [EvRelease]. repeat split; try done.
      + unfold st'. by rewrite released_after_release, process_released, Hrel.
      + intros msec Hin. by apply list_elem_of_singleton in Hin.
      + left. split; [done|]. split; [congruence|].
        intros v Hv. apply Hall, elem_of_seconds. rewrite Hkn, Hlen. lia.
    - exists 1%nat, [EvRelease]. repeat split; try done.
      + unfold st'. by rewrite released_after_release, process_released, Hrel.
      + intros msec Hin. by apply list_elem_of_singleton in Hin.
      + right. exists j. split; [done|]. split; [|by left].
        intros v Hv. apply Hall, elem_of_seconds. lia.
    - exists 0%nat, []. repeat split; try done.
      + unfold st'. by rewrite process_released.
      + by rewrite app_nil_r.
      + intros msec Hin. by apply elem_of_nil in Hin.
      + right. exists j. split; [done|]. split; [|by right].
        intros v Hv. apply Hall, elem_of_seconds. lia. }
  (* second [t] was processed *)
  assert (a + Z.of_nat k > t) as Hkt.
  { destruct Hway as [(_ & -> & _)|(j & -> & Hgood & [Hnone|(_ & _ & Hcr)])]; [lia| |].
    - destruct (Z.le_gt_cases (a + Z.of_nat j) t) as [Hle|]; [|lia].
      destruct (Hdec (a + Z.of_nat j)) as [f Hf]; [lia|congruence].
    - destruct (Z.lt_ge_cases (a + Z.of_nat j) t) as [Hlt|]; [|lia].
      by destruct (Hnocrash (a + Z.of_nat j)); [lia|]. }
  assert (files (st_fs (run w url dir s e fs).2) !! frame_path dir t =
          match write_outcome w (dirs (st_fs st)) (frame_path dir t) with
          | Written => frame_at cap (t * 1000)
          | _ => files fs !! frame_path dir t
          end) as Hfile.
  { rewrite Hfs. unfold st'.
    rewrite process_files_at; [| apply NoDup_seconds
                               | intros v Hv%elem_of_seconds; lia
                               | apply elem_of_seconds; lia].
    destruct (Hdec t) as [f ->]; [lia|]. rewrite Hfiles.
    case_decide as Hw; [by rewrite Hw|].
    by destruct (write_outcome w (dirs (st_fs st)) (frame_path dir t)). }
  assert (∀ msec, EvSeek msec ∈ st_trace (run w url dir s e fs).2 ↔
                  ∃ u, a ≤ u < a + Z.of_nat k ∧ msec = u * 1000) as Hseek.
  { intros msec. rewrite Htrace. unfold st'. rewrite process_trace, Htr.
    rewrite !elem_of_app, seek_in_seconds. split.
    - intros [[Hin|(u & Hu%elem_of_seconds & ->)]|Hin].
      + apply (bool_decide_pack _) in Hin. vm_compute in Hin.
        repeat (case_match; try done).
      + eauto.
      + by apply Htail in Hin.
    - intros (u & Hu & ->). left. right. exists u.
      by rewrite elem_of_seconds. }
  assert (write_outcome w (dirs (st_fs st)) (frame_path dir t) ≠ Crashed →
          (t < b → EvSeek ((t + 1) * 1000) ∈ st_trace (run w url dir s e fs).2) ∧
          (t = b → (run w url dir s e fs).1 = inr Exhausted)) as Hgoes.
  { intros Hw. split.
    - intros Hlt. apply Hseek. exists (t + 1). split; [|done].
      destruct Hway as [(_ & -> & _)|(j & -> & Hgood & [Hnone|(_ & _ & Hcr)])]; [lia| |].
      + destruct (Z.le_gt_cases (a + Z.of_nat j) t) as [Hle|]; [|lia].
        destruct (Hdec (a + Z.of_nat j)) as [f Hf]; [lia|congruence].
      + destruct (Z.lt_trichotomy (a + Z.of_nat j) t) as [?|[Heq|?]]; [| |lia].
        * by destruct (Hnocrash (a + Z.of_nat j)); [lia|].
        * by rewrite Heq in Hcr.
    - intros ->.
      destruct Hway as [(Hrun & _)|(j & -> & Hgood & [Hnone|(_ & _ & Hcr)])];
        [done| |].
      + destruct (Hdec (a + Z.of_nat j)) as [f Hf]; [lia|congruence].
      + assert (a + Z.of_nat j = b) as Heq by lia. by rewrite Heq in Hcr. }
  destruct (write_outcome w (dirs (st_fs st)) (frame_path dir t)) eqn:Hw.
  - destruct Hgoes as [? ?]; done.
  - destruct Hgoes as [? ?]; done.
  - clear Hgoes.
    destruct Hway as [(_ & _ & Hall)|(j & -> & Hgood & [Hnone|(Hrun & -> & Hcr)])].
    + by destruct (Hall t).
    + destruct (Hgood t) as [_ ?]; [|done].
      destruct (Z.le_gt_cases (a + Z.of_nat j) t) as [Hle|]; [|lia].
      destruct (Hdec (a + Z.of_nat j)) as [f Hf]; [lia|congruence].
    + destruct (Z.lt_trichotomy (a + Z.of_nat j) t) as [?|[Heq|?]].
      * by destruct (Hnocrash (a + Z.of_nat j)); [lia|].
      * split; [done|]. split; [done|].
        intros u Hu (v & Hv & Heq')%Hseek. lia.
      * by destruct (Hgood t); [lia|].
Qed.

Lemma refused_write_is_ignored_witness :
  let w := world_of clip_20s second_1_refused in
  let r := run w video "frames" 0 (Some 2) empty_fs in
  match write_outcome w (dirs (st_fs (prepared 600 30))) (frame_path "frames" 1) with
  | Crashed =>
      r.1 = inl Py.CvError ∧ st_released r.2 = 0%nat ∧
      ∀ u, 1 < u → EvSeek (u * 1000) ∉ st_trace r.2
  | Refused =>
      (1 < 2 → EvSeek ((1 + 1) * 1000) ∈ st_trace r.2) ∧
      (1 = 2 → r.1 = inr Exhausted) ∧
      files (st_fs r.2) !! frame_path "frames" 1 =
      files empty_fs !! frame_path "frames" 1
  | Written =>
      (1 < 2 → EvSeek ((1 + 1) * 1000) ∈ st_trace r.2) ∧
      (1 = 2 → r.1 = inr Exhausted) ∧
      files (st_fs r.2) !! frame_path "frames" 1 = frame_at clip_20s (1 * 1000)
  end.
Proof.
  refine (refused_write_is_ignored (world_of clip_20s second_1_refused) video
            "frames" 0 (Some 2) empty_fs clip_20s _ (prepared 600 30)
            0 2 1 _ _ _ _ _).
  - vm_compute. reflexivity.
  - vm_compute. reflexivity.
  - lia.
  - intros u Hu. unfold clip_20s, clip. simpl.
    destruct (Z.leb_spec 0 (u * 1000)); [|lia].
    destruct (Z.leb_spec (u * 1000) 20000); [|lia]. simpl. eauto.
  - intros u Hu. assert (u = 0) as -> by lia. by vm_compute.
Defined.

(** The claim as worded (a failed write aborts the run) fails: the write of
    second 1 is refused and the run returns normally. *)
Lemma failed_write_not_fatal : ¬ failed_write_is_fatal.
Proof.
  intros H.
  destruct (H (world_of clip_20s second_1_refused) video "frames" 0 (Some 2)
              empty_fs "frames/frame_0001.jpg" [1000%N] Refused) as [x Hx].
  - apply (bool_decide_unpack _). by vm_compute.
  - done.
  - by vm_compute in Hx.
Qed.

(** ** C9 and C10: the output directory, and running twice *)

Section Twice.
Context (w : World) (url dir : string) (s : Z) (e : option Z).

Local Abbreviation rest :=
  (do m <- acquire w url; sample w m.1 m.2 dir s e).

Lemma run_after_makedirs (fs : FS) :
  run w url dir s e fs =
  match os_makedirs w dir true (initial fs) with
  | (inl x, st) => (inl x, st)
  | (inr _, st) => rest st
  end.
Proof.
  unfold run, capture_every_second, bind.
  by destruct (os_makedirs w dir true (initial fs)) as [[x|[]] st].
Qed.

(** The first call of every run is the creation of the directory. *)
Lemma makedirs_comes_first (fs : FS) :
  head (st_trace (run w url dir s e fs).2) = Some (EvMakedirs dir).
Proof.
  rewrite run_after_makedirs.
  destruct (os_makedirs w dir true (initial fs)) as [[x|[]] st] eqn:Hmk;
    pose proof (os_makedirs_spec _ _ _ _ _ Hmk) as (Hst & _).
  - by rewrite Hst.
  - destruct (rest st) as [r st'] eqn:Hrest.
    apply blind_frame in Hrest as (_ & evs & Hevs);
      [|apply blind_after_makedirs]. cbn [snd]. by rewrite Hevs, Hst.
Qed.

(** C9: run again on the file system the first run left, with the same
    world, the procedure does exactly what it did: the creation of the
    directory ends the same way without changing anything (it succeeds on
    the directory it created), the same files are handed to
    [cv2.imwrite] under the same names, and the file system is left as
    the first run left it, with no file added. *)
Theorem second_run_changes_nothing (fs : FS) :
  let r1 := run w url dir s e fs in
  let r2 := run w url dir s e (st_fs r1.2) in
  os_makedirs w dir true (initial (st_fs r1.2)) =
    ((os_makedirs w dir true (initial fs)).1,
     log [EvMakedirs dir] (initial (st_fs r1.2))) ∧
  r2 = r1 ∧
  write_attempts (st_trace r2.2) = write_attempts (st_trace r1.2) ∧
  dom (files (st_fs r2.2)) = dom (files (st_fs r1.2)).
Proof.
  cbv zeta.
  assert (os_makedirs w dir true (initial (st_fs (run w url dir s e fs).2)) =
            ((os_makedirs w dir true (initial fs)).1,
             log [EvMakedirs dir] (initial (st_fs (run w url dir s e fs).2))) ∧
          run w url dir s e (st_fs (run w url dir s e fs).2) =
          run w url dir s e fs) as [Hmk2 Heq].
  2: { split; [done|]. split; [done|]. by rewrite Heq. }
  rewrite (run_after_makedirs (st_fs _)).
  rewrite (run_after_makedirs fs).
  destruct (os_makedirs w dir true (initial fs)) as [[x|[]] st] eqn:Hmk.
  - cbn [fst snd].
    rewrite (os_makedirs_again w dir (initial fs) _ st (initial (st_fs st)) Hmk eq_refl).
    pose proof (os_makedirs_spec _ _ _ _ _ Hmk) as (Hst & _).
    split; [done|]. f_equal. symmetry. etrans; [exact Hst|]. done.
  - destruct (rest st) as [r st'] eqn:Hrest. cbn [fst snd].
    pose proof (os_makedirs_spec _ _ _ _ _ Hmk) as (Hst & Hfiles & _ & Hok & _).
    destruct (Hok eq_refl) as [Hdir _].
    pose proof (blind_frame _ _ _ _ (blind_after_makedirs w url dir s e) Hrest)
      as (Hdirs & _).
    rewrite os_makedirs_present by (simpl; by rewrite Hdirs).
    split; [done|].
    assert (log [EvMakedirs dir] (initial (st_fs st')) =
            set_files (files (st_fs st')) st) as ->.
    { rewrite Hst. unfold log, set_files, with_fs, initial. simpl.
      f_equal. rewrite <- Hdirs. by destruct (st_fs st'). }
    by apply blind_again; [apply blind_after_makedirs|].
Qed.

(** C10, as the code has it: the creation of the output directory is the
    first call of the run; when it does not raise, the directory (and,
    when it was missing, each of its ancestors) exists when the run ends,
    however the run ends. *)
Theorem directory_left_behind (fs : FS) (st0 : State) :
  os_makedirs w dir true (initial fs) = (inr tt, st0) →
  let r := run w url dir s e fs in
  head (st_trace r.2) = Some (EvMakedirs dir) ∧
  dir ∈ dirs (st_fs r.2) ∧
  (dir ∉ dirs fs → ∀ p, p ∈ ancestors dir → p ∈ dirs (st_fs r.2)) ∧
  dirs fs ⊆ dirs (st_fs r.2).
Proof.
  intros Hmk. cbv zeta. split; [apply makedirs_comes_first|].
  rewrite run_after_makedirs, Hmk.
  destruct (rest st0) as [r st'] eqn:Hrest. cbn [fst snd].
  pose proof (blind_frame _ _ _ _ (blind_after_makedirs w url dir s e) Hrest)
    as (-> & _).
  apply os_makedirs_spec in Hmk as (_ & _ & Hsub & Hok & _).
  destruct (Hok eq_refl) as [Hdir Hanc]. done.
Qed.

End Twice.

Lemma directory_left_behind_witness :
  let r := run (world_of clip_20s all_written) video "out/frames" 8 (Some 3)
             empty_fs in
  head (st_trace r.2) = Some (EvMakedirs "out/frames") ∧
  "out/frames" ∈ dirs (st_fs r.2) ∧
  ("out/frames" ∉ dirs empty_fs →
   ∀ p, p ∈ ancestors "out/frames" → p ∈ dirs (st_fs r.2)) ∧
  dirs empty_fs ⊆ dirs (st_fs r.2).
Proof.
  refine (directory_left_behind (world_of clip_20s all_written) video
            "out/frames" 8 (Some 3) empty_fs _ _).
  vm_compute. reflexivity.
Defined.

(** The claim as worded (every run leaves the directory) fails when the
    path already names a regular file: [os.makedirs] raises and there is
    no such directory afterwards. *)
Lemma directory_not_always_left : ¬ directory_always_left.
Proof.
  intros H.
  specialize (H (world_of clip_20s all_written) video "frames" 0 None
                frames_is_a_file).
  apply (bool_decide_pack _) in H. by vm_compute in H.
Qed.

Example file_in_the_way :
  (run (world_of clip_20s all_written) video "frames" 0 None
     frames_is_a_file).1 = inl Py.FileExistsError.
Proof. by vm_compute. Qed.

(** ** C1: where the stream is released *)

(** [cap.release()] runs exactly once in the runs that return (the range
    ran out, or the loop stopped early), and not at all in the runs that
    raise. *)
Theorem released_iff_returned (w : World) (url dir : string) (s : Z)
    (e : option Z) (fs : FS) :
  st_released (run w url dir s e fs).2 =
  match (run w url dir s e fs).1 with inr _ => 1%nat | inl _ => 0%nat end.
Proof.
  rewrite run_prepare.
  destruct (prepare w url dir (initial fs)) as [[x|[cap d]] st] eqn:Hprep.
  - unfold prepare, bind in Hprep.
    destruct (os_makedirs w dir true (initial fs)) as [[y|[]] st1] eqn:Hmk;
      pose proof (os_makedirs_spec _ _ _ _ _ Hmk) as (Hst & _).
    + simplify_eq. by rewrite Hst.
    + apply acquire_spec in Hprep as (evs & -> & _). by rewrite Hst.
  - cbn [fst snd].
    pose proof (prepare_spec _ _ _ _ _ _ _ Hprep)
      as (su & fc & _ & _ & _ & _ & _ & _ & _ & _ & _ & Hrel).
    destruct (adjust_range s e d) as [x|[a b]] eqn:Hadj.
    + by rewrite (sample_rejected _ _ _ _ _ _ _ _ Hadj).
    + rewrite (sample_range _ _ _ _ _ _ _ _ _ Hadj).
      destruct (capture_loop _ _ _ _ _ _) as [[x|exit] st'] eqn:Hloop;
        apply capture_loop_inv in Hloop as (k & _ & -> & _); cbn [fst snd].
      * by rewrite process_released.
      * by rewrite released_after_release, process_released, Hrel.
Qed.

(** ** File names *)

(** Two different seconds are never written to the same file. *)
Theorem distinct_seconds_distinct_files (dir : string) (a b : Z) :
  0 ≤ a → 0 ≤ b → a ≠ b → frame_path dir a ≠ frame_path dir b.
Proof. intros Ha Hb Hne Heq. by apply Hne, (frame_path_inj dir). Qed.

Lemma distinct_seconds_distinct_files_witness :
  frame_path "frames" 9999 ≠ frame_path "frames" 10000.
Proof. apply distinct_seconds_distinct_files; lia. Defined.

(** ** C5: the end of the range and the last second *)



(** * Further properties of the procedure *)

(** ** What every run leaves alone *)

Section Frame.
Context (w : World).

(** [acquire], case by case. *)
Lemma acquire_cases (url : string) (st : State) :
  acquire w url st =
  match extract_info w url with
  | None => (inl Py.DownloadError, log [EvExtractInfo url] st)
  | Some None => (inl Py.KeyError, log [EvExtractInfo url] st)
  | Some (Some su) =>
      let cap := VideoCapture w su in
      if isOpened cap then
        match Py.int (CAP_PROP_FRAME_COUNT cap) with
        | inl x => (inl x, log [EvExtractInfo url; EvVideoCapture su] st)
        | inr fc =>
            (match Py.truediv fc (CAP_PROP_FPS cap) with
             | inl x => inl x
             | inr d => inr (cap, d)
             end,
             log [EvExtractInfo url; EvVideoCapture su;
                  EvDivide fc (CAP_PROP_FPS cap)] st)
        end
      else (inl Py.RuntimeError, log [EvExtractInfo url; EvVideoCapture su] st)
  end.
Proof.
  unfold acquire, resolve_stream_url, open_capture, measure,
    bind, emit, lift, ret, raise, log. simpl.
  destruct (extract_info w url) as [[su|]|]; simpl; try done.
  destruct (isOpened (VideoCapture w su)); simpl.
  2: by rewrite <- app_assoc.
  destruct (Py.int _) as [x|fc]; simpl.
  1: by rewrite <- app_assoc.
  destruct (Py.truediv _ _) as [x|d]; simpl; by rewrite <- !app_assoc.
Qed.

(** The directories [os.makedirs] may add. *)
Lemma os_makedirs_adds (name : string) (st : State) r st' (q : string) :
  os_makedirs w name true st = (r, st') →
  q ∈ dirs (st_fs st') → q ∈ dirs (st_fs st) ∨ q = name ∨ q ∈ ancestors name.
Proof.
  rewrite os_makedirs_unfold. cbv zeta.
  case_bool_decide as Hin; [|case_bool_decide as Hname].
  - intros [= <- <-]. by left.
  - intros [= <- <-]. by left.
  - destruct (mkdir_all w (ancestors name) (log [EvMakedirs name] st))
      as [[x|[]] st1] eqn:E1;
      apply mkdir_all_spec in E1 as (_ & _ & _ & Hup & _).
    + intros [= <- <-] Hq. apply Hup, elem_of_union in Hq as [Hq|Hq]; [by left|].
      right. right. by apply elem_of_list_to_set in Hq.
    + intros E2 Hq. apply mkdir_step_spec in E2 as (_ & _ & _ & Hup2 & _).
      apply Hup2, elem_of_union in Hq as [Hq|Hq].
      * apply Hup, elem_of_union in Hq as [Hq|Hq]; [by left|].
        right. right. by apply elem_of_list_to_set in Hq.
      * right. left. by apply elem_of_singleton in Hq.
Qed.

(** [acquire] neither seeks nor writes. *)
Lemma acquire_quiet (url : string) (st : State) r st' :
  acquire w url st = (r, st') →
  ∃ evs, st' = log evs st ∧ write_attempts evs = [] ∧
         ∀ msec, EvSeek msec ∉ evs.
Proof.
  rewrite acquire_cases.
  assert (∀ evs : list Event, Forall (λ ev, ∀ msec, ev ≠ EvSeek msec) evs →
            ∀ msec, EvSeek msec ∉ evs) as Hno.
  { intros evs Hall msec Hin. rewrite Forall_forall in Hall.
    by apply (Hall _ Hin msec). }
  destruct (extract_info w url) as [[su|]|]; cbv zeta.
  2,3: intros [= <- <-]; eexists; split; [done|]; split; [done|];
       apply Hno; by repeat constructor.
  destruct (isOpened (VideoCapture w su)).
  2: intros [= <- <-]; eexists; split; [done|]; split; [done|];
     apply Hno; by repeat constructor.
  destruct (Py.int _) as [x|fc].
  all: intros [= <- <-]; eexists; split; [done|]; split; [done|];
       apply Hno; by repeat constructor.
Qed.

(** What the preparation leaves, however it ends. *)
Lemma prepare_frame (url dir : string) (fs : FS) r st :
  prepare w url dir (initial fs) = (r, st) →
  files (st_fs st) = files fs ∧
  dirs fs ⊆ dirs (st_fs st) ∧
  (∀ q, q ∈ dirs (st_fs st) → q ∈ dirs fs ∨ q = dir ∨ q ∈ ancestors dir) ∧
  st_released st = 0%nat ∧
  write_attempts (st_trace st) = [] ∧
  (∀ msec, EvSeek msec ∉ st_trace st).
Proof.
  unfold prepare, bind.
  destruct (os_makedirs w dir true (initial fs)) as [[x|[]] st1] eqn:Hmk;
    pose proof (os_makedirs_spec _ _ _ _ _ Hmk) as (Hst1 & Hfiles & Hsub & _);
    pose proof (λ q, os_makedirs_adds _ _ _ _ q Hmk) as Hadds;
    simpl in Hfiles, Hsub, Hadds.
  - intros [= <- <-].
    split; [done|]. split; [done|]. split; [done|].
    rewrite Hst1. simpl. split; [done|]. split; [done|].
    intros msec Hin. by apply list_elem_of_singleton in Hin.
  - intros Hacq. apply acquire_quiet in Hacq as (evs & -> & Hw & Hseek). simpl.
    split; [done|]. split; [done|]. split; [done|].
    rewrite Hst1. simpl. split; [done|].
    split; [by rewrite Hw|].
    intros msec [Hin|Hin]%elem_of_cons; [done|]. by apply Hseek in Hin.
Qed.

End Frame.

Section Footprint.
Context (w : World) (cap : Stream) (dir : string).

Lemma process_dirs (us : list Z) (st : State) :
  dirs (st_fs (process w cap dir us st)) = dirs (st_fs st).
Proof.
  revert st. induction us as [|u us IH]; intros st; [done|].
  by rewrite process_cons, IH, body_dirs.
Qed.

(** The loop only adds files. *)
Lemma process_keeps (us : list Z) (st : State) (p : string) :
  is_Some (files (st_fs st) !! p) →
  is_Some (files (st_fs (process w cap dir us st)) !! p).
Proof.
  revert st. induction us as [|u us IH]; intros st Hp; [done|].
  rewrite process_cons. apply IH. unfold after_second. simpl.
  destruct (frame_at cap (u * 1000)); [|done]. case_decide; [|done]. simpl.
  rewrite lookup_insert. by case_decide.
Qed.

(** Every file handed to [cv2.imwrite] is the file of a processed second. *)
Lemma attempt_in_seconds (ds : gset string) (us : list Z) (fname : string) :
  fname ∈ write_attempts (flat_map (second_events w ds cap dir) us) →
  ∃ u, u ∈ us ∧ fname = frame_path dir u.
Proof.
  induction us as [|u us IH]; simpl.
  - by intros ?%elem_of_nil.
  - rewrite write_attempts_app, elem_of_app. intros [Hin|Hin].
    + exists u. split; [by left|]. unfold second_events in Hin.
      destruct (frame_at cap (u * 1000)); simpl in Hin.
      * by apply list_elem_of_singleton in Hin.
      * by apply elem_of_nil in Hin.
    + destruct (IH Hin) as (v & Hv & ->). exists v. split; [by right|done].
Qed.

End Footprint.

(** The clamp never moves the end second up. *)
Lemma clamp_end_le (n : Z) (d : Py.float) (b : Z) :
  clamp_end (Some n) d = inr b → b ≤ n.
Proof.
  simpl. destruct (Py.int_gt_float n d) eqn:Hgt; [|intros [= <-]; lia].
  intros Hint.
  destruct (floor_float d) as [fl|] eqn:Hfl.
  - rewrite (int_gt_float_floor d fl n Hfl) in Hgt. apply Z.ltb_lt in Hgt.
    destruct (int_floor_bounds d fl Hfl) as (t & Ht & Hb & _).
    rewrite Ht in Hint. simplify_eq. lia.
  - destruct d; simplify_eq/=.
Qed.

(** The seconds a run touches, and what it leaves of the rest: whatever the
    outcome, there is a list of seconds of the requested range such that
    every seek, every write and every changed file is that of one of them. *)
Lemma run_footprint (w : World) (url dir : string) (s : Z) (e : option Z)
    (fs : FS) :
  ∃ us : list Z,
    (∀ u, u ∈ us → Z.max 0 s ≤ u ∧ ∀ n, e = Some n → u ≤ n) ∧
    (∀ fname, fname ∈ write_attempts (st_trace (run w url dir s e fs).2) →
              ∃ u, u ∈ us ∧ fname = frame_path dir u) ∧
    (∀ msec, EvSeek msec ∈ st_trace (run w url dir s e fs).2 →
             ∃ u, u ∈ us ∧ msec = u * 1000) ∧
    (∀ p, (∀ u, u ∈ us → p ≠ frame_path dir u) →
          files (st_fs (run w url dir s e fs).2) !! p = files fs !! p) ∧
    (∀ p, is_Some (files fs !! p) →
          is_Some (files (st_fs (run w url dir s e fs).2) !! p)) ∧
    dirs fs ⊆ dirs (st_fs (run w url dir s e fs).2) ∧
    (∀ q, q ∈ dirs (st_fs (run w url dir s e fs).2) →
          q ∈ dirs fs ∨ q = dir ∨ q ∈ ancestors dir).
Proof.
  rewrite run_prepare.
  destruct (prepare w url dir (initial fs)) as [[x|[cap d]] st] eqn:Hprep;
    pose proof (prepare_frame _ _ _ _ _ _ Hprep)
      as (Hfiles & Hsub & Hadds & Hrel & Hw0 & Hseek0).
  { exists []. cbn [fst snd]. rewrite Hw0, Hfiles.
    split; [by intros u ?%elem_of_nil|]. split; [by intros f ?%elem_of_nil|].
    split; [by intros msec ?%Hseek0|]. done. }
  cbn [fst snd].
  destruct (adjust_range s e d) as [x|[a b]] eqn:Hadj.
  { rewrite (sample_rejected _ _ _ _ _ _ _ _ Hadj).
    exists []. cbn [fst snd]. rewrite Hw0, Hfiles.
    split; [by intros u ?%elem_of_nil|]. split; [by intros f ?%elem_of_nil|].
    split; [by intros msec ?%Hseek0|]. done. }
  rewrite <- (run_sampling w url dir s e fs cap d st Hprep).
  pose proof (adjust_range_inv _ _ _ _ _ Hadj) as (Ha & Hend & Hab).
  destruct (run_shape w url dir s e fs cap d st a b Hprep Hadj)
    as (k & Hk & Hmode). cbv zeta in Hmode.
  rewrite (range_len_pos s e d a b Hadj) in Hk.
  exists (seconds a k).
  assert (∃ tail,
    st_fs (run w url dir s e fs).2 = st_fs (process w cap dir (seconds a k) st) ∧
    st_trace (run w url dir s e fs).2 =
      st_trace (process w cap dir (seconds a k) st) ++ tail ∧
    write_attempts tail = [] ∧ ∀ msec, EvSeek msec ∉ tail)
    as (tail & Hfs & Htr & Hwt & Hst).
  { destruct Hmode as [(-> & _)|(j & _ & _ & [[-> _]|[-> _]])]; cbn [fst snd].
    - exists [EvRelease]. repeat split; try done.
      intros msec Hin. by apply list_elem_of_singleton in Hin.
    - exists [EvRelease]. repeat split; try done.
      intros msec Hin. by apply list_elem_of_singleton in Hin.
    - exists []. rewrite app_nil_r. repeat split; try done.
      intros msec Hin. by apply elem_of_nil in Hin. }
  rewrite Hfs, Htr, process_trace, process_dirs. clear Hmode.
  split; [|split; [|split; [|split; [|split]]]].
  - intros u Hu%elem_of_seconds. split; [lia|].
    intros n ->. apply clamp_end_le in Hend. lia.
  - rewrite !write_attempts_app, Hw0, Hwt, app_nil_r. simpl.
    apply attempt_in_seconds.
  - intros msec Hin. rewrite !elem_of_app in Hin. destruct Hin as [[Hin|Hin]|Hin].
    + by apply Hseek0 in Hin.
    + by apply seek_in_seconds in Hin.
    + by apply Hst in Hin.
  - intros p Hp. by rewrite process_files_other, Hfiles.
  - intros p Hp. apply process_keeps. by rewrite Hfiles.
  - done.
Qed.

(** Whatever the outcome, a file is handed to [cv2.imwrite] only under the
    name of a second of the requested range: not before [max(0, start_sec)]
    and, when an end second is given, not after it. *)
Theorem writes_stay_in_requested_range (w : World) (url dir : string) (s : Z)
    (e : option Z) (fs : FS) (fname : string) :
  fname ∈ write_attempts (st_trace (run w url dir s e fs).2) →
  ∃ u, Z.max 0 s ≤ u ∧ (∀ n, e = Some n → u ≤ n) ∧ fname = frame_path dir u.
Proof.
  intros Hin.
  destruct (run_footprint w url dir s e fs) as (us & Hus & Hw & _).
  destruct (Hw fname Hin) as (u & Hu & ->). exists u.
  destruct (Hus u Hu). done.
Qed.

Lemma writes_stay_in_requested_range_witness :
  ∃ u, Z.max 0 10 ≤ u ∧ (∀ n, Some 12 = Some n → u ≤ n) ∧
       "frames/frame_0011.jpg" = frame_path "frames" u.
Proof.
  apply (writes_stay_in_requested_range (world_of clip_20s all_written) video
           "frames" 10 (Some 12) empty_fs).
  apply (bool_decide_unpack _). by vm_compute.
Defined.

(** Whatever the outcome, the stream is only ever positioned at a whole
    second of the requested range, in milliseconds. *)
Theorem seeks_stay_in_requested_range (w : World) (url dir : string) (s : Z)
    (e : option Z) (fs : FS) (msec : Z) :
  EvSeek msec ∈ st_trace (run w url dir s e fs).2 →
  ∃ u, Z.max 0 s ≤ u ∧ (∀ n, e = Some n → u ≤ n) ∧ msec = u * 1000.
Proof.
  intros Hin.
  destruct (run_footprint w url dir s e fs) as (us & Hus & _ & Hs & _).
  destruct (Hs msec Hin) as (u & Hu & ->). exists u.
  destruct (Hus u Hu). done.
Qed.

Lemma seeks_stay_in_requested_range_witness :
  ∃ u, Z.max 0 (-3) ≤ u ∧ (∀ n, Some 1 = Some n → u ≤ n) ∧ 1000 = u * 1000.
Proof.
  apply (seeks_stay_in_requested_range (world_of clip_20s all_written) video
           "frames" (-3) (Some 1) empty_fs).
  apply (bool_decide_unpack _). by vm_compute.
Defined.

(** Whatever the outcome, a file that is not the frame file of a second
    from [max(0, start_sec)] on keeps the content it had (or stays absent). *)
Theorem other_files_untouched (w : World) (url dir : string) (s : Z)
    (e : option Z) (fs : FS) (p : string) :
  (∀ u, Z.max 0 s ≤ u → p ≠ frame_path dir u) →
  files (st_fs (run w url dir s e fs).2) !! p = files fs !! p.
Proof.
  intros Hp.
  destruct (run_footprint w url dir s e fs) as (us & Hus & _ & _ & Hf & _).
  apply Hf. intros u Hu. apply Hp. by destruct (Hus u Hu).
Qed.

Lemma other_files_untouched_witness :
  files (st_fs (run (world_of clip_20s all_written) video "frames" 0 (Some 2)
                  fs_with_note).2) !! "frames/notes.txt" =
  files fs_with_note !! "frames/notes.txt".
Proof.
  apply other_files_untouched.
  intros u _ H. cbv -[Py.format_04d] in H. congruence.
Defined.

(** Whatever the outcome, the run removes no file and no directory, and the
    only directories it can add are the output directory and its
    ancestors. *)
Theorem run_only_adds (w : World) (url dir : string) (s : Z) (e : option Z)
    (fs : FS) :
  let fs' := st_fs (run w url dir s e fs).2 in
  dom (files fs) ⊆ dom (files fs') ∧
  dirs fs ⊆ dirs fs' ∧
  ∀ q, q ∈ dirs fs' → q ∈ dirs fs ∨ q = dir ∨ q ∈ ancestors dir.
Proof.
  cbv zeta.
  destruct (run_footprint w url dir s e fs)
    as (us & _ & _ & _ & _ & Hkeep & Hsub & Hadds).
  split; [|done]. intros p Hp. apply elem_of_dom. apply Hkeep.
  by apply elem_of_dom.
Qed.

(** When every second of the range decodes and every write succeeds, the
    procedure returns after the last second with the stream released once;
    the artifacts are those of all the seconds of the range, in order; each
    file holds the frame decoded at its second, and no other file changes. *)
Theorem full_range_sampled (w : World) (url dir : string) (s : Z)
    (e : option Z) (fs : FS) (cap : Stream) (d : Py.float) (st : State)
    (a b : Z) :
  prepare w url dir (initial fs) = (inr (cap, d), st) →
  adjust_range s e d = inr (a, b) →
  (∀ u, a ≤ u ≤ b → is_Some (frame_at cap (u * 1000))) →
  (∀ u, a ≤ u ≤ b →
        write_outcome w (dirs (st_fs st)) (frame_path dir u) = Written) →
  let r := run w url dir s e fs in
  r.1 = inr Exhausted ∧
  st_released r.2 = 1%nat ∧
  artifacts (st_trace r.2) =
    map (frame_path dir) (seconds a (Z.to_nat (b - a + 1))) ∧
  (∀ u, a ≤ u ≤ b →
        files (st_fs r.2) !! frame_path dir u = frame_at cap (u * 1000)) ∧
  (∀ p, (∀ u, a ≤ u ≤ b → p ≠ frame_path dir u) →
        files (st_fs r.2) !! p = files fs !! p).
Proof.
  intros Hprep Hadj Hdec Hwr. cbv zeta.
  pose proof (adjust_range_inv _ _ _ _ _ Hadj) as (Ha & _ & Hab).
  destruct (run_shape w url dir s e fs cap d st a b Hprep Hadj)
    as (k & Hk & Hmode). cbv zeta in Hmode.
  pose proof (range_len_pos s e d a b Hadj) as Hlen. rewrite Hlen in Hk.
  destruct Hmode as [(Hrun & -> & _)|(j & -> & _ & [[_ Hnone]|(_ & _ & Hcr)])].
  2: { destruct (Hdec (a + Z.of_nat j)) as [f Hf]; [lia|congruence]. }
  2: { rewrite Hwr in Hcr by lia. done. }
  rewrite Hrun, Hlen. cbn [fst snd].
  assert (Z.to_nat (b - a + 1) = S (Z.to_nat (b - a))) as -> by lia.
  set (k := S (Z.to_nat (b - a))).
  assert (∀ u, u ∈ seconds a k ↔ a ≤ u ≤ b) as Hsec
    by (intros u; rewrite elem_of_seconds; unfold k; lia).
  clearbody k.
  apply prepare_spec in Hprep
    as (su & fc & _ & _ & _ & _ & _ & Htr & Hfiles & _ & _ & Hrel).
  rewrite released_after_release, process_released, trace_after_release,
    fs_after_release, process_trace, Hrel.
  split; [done|]. split; [done|]. split; [|split].
  - rewrite !artifacts_app, Htr, artifacts_seconds
      by (intros u Hu; by apply Hdec, Hsec).
    simpl. rewrite app_nil_r. f_equal. apply filter_all.
    intros u Hu. by apply Hwr, Hsec.
  - intros u Hu.
    rewrite process_files_at; [| apply NoDup_seconds
                               | intros v Hv%Hsec; lia
                               | by apply Hsec].
    destruct (Hdec u Hu) as [f ->]. by rewrite decide_True by by apply Hwr.
  - intros p Hp. rewrite process_files_other, Hfiles; [done|].
    intros u Hu%Hsec. by apply Hp.
Qed.

Lemma full_range_sampled_witness :
  let w := world_of clip_20s all_written in
  let r := run w video "frames" 10 (Some 12) empty_fs in
  r.1 = inr Exhausted ∧
  st_released r.2 = 1%nat ∧
  artifacts (st_trace r.2) =
    map (frame_path "frames") (seconds 10 (Z.to_nat (12 - 10 + 1))) ∧
  (∀ u, 10 ≤ u ≤ 12 →
        files (st_fs r.2) !! frame_path "frames" u = frame_at clip_20s (u * 1000)) ∧
  (∀ p, (∀ u, 10 ≤ u ≤ 12 → p ≠ frame_path "frames" u) →
        files (st_fs r.2) !! p = files empty_fs !! p).
Proof.
  refine (full_range_sampled (world_of clip_20s all_written) video "frames"
            10 (Some 12) empty_fs clip_20s _ (prepared 600 30) 10 12 _ _ _ _).
  - vm_compute. reflexivity.
  - vm_compute. reflexivity.
  - intros u Hu. unfold clip_20s, clip. simpl.
    destruct (Z.leb_spec 0 (u * 1000)); [|lia].
    destruct (Z.leb_spec (u * 1000) 20000); [|lia]. simpl. eauto.
  - intros u Hu. unfold write_outcome. simpl.
    rewrite bool_decide_eq_false_2; [done|].
    intros Hin%elem_of_singleton. cbv -[Py.format_04d] in Hin. congruence.
Defined.

(** ** Failures before the loop *)

(** When the link does not resolve (extraction raises, or the info has no
    ['url'] entry), the run ends right after the call of the resolver, with
    [DownloadError] or [KeyError]: no stream is opened and no file changes,
    whatever the requested range is. *)
Theorem unresolved_link_stops_the_run (w : World) (url dir : string) (s : Z)
    (e : option Z) (fs : FS) (st0 : State) :
  os_makedirs w dir true (initial fs) = (inr tt, st0) →
  (∀ su, extract_info w url ≠ Some (Some su)) →
  let r := run w url dir s e fs in
  r.1 = inl (match extract_info w url with
             | None => Py.DownloadError
             | Some _ => Py.KeyError
             end) ∧
  st_trace r.2 = [EvMakedirs dir; EvExtractInfo url] ∧
  files (st_fs r.2) = files fs ∧
  st_released r.2 = 0%nat.
Proof.
  intros Hmk Hinfo. cbv zeta.
  pose proof (os_makedirs_spec _ _ _ _ _ Hmk) as (Hst0 & Hfiles & _).
  unfold run, capture_every_second, bind. rewrite Hmk, acquire_cases.
  destruct (extract_info w url) as [[su|]|]; [by destruct (Hinfo su)| |];
    rewrite Hst0; simpl; by rewrite Hfiles.
Qed.

Lemma unresolved_link_stops_the_run_witness :
  let r := run world_offline video "frames" 8 (Some 3) empty_fs in
  r.1 = inl Py.DownloadError ∧
  st_trace r.2 = [EvMakedirs "frames"; EvExtractInfo video] ∧
  files (st_fs r.2) = files empty_fs ∧
  st_released r.2 = 0%nat.
Proof.
  refine (unresolved_link_stops_the_run world_offline video "frames" 8 (Some 3)
            empty_fs _ _ _).
  - vm_compute. reflexivity.
  - intros su. discriminate.
Defined.

(** When the resolved stream does not open, the run ends with
    [RuntimeError] right after the call of [cv2.VideoCapture]: no property of
    the stream is read, nothing is divided, sought or written, and
    [cap.release()] is not called. *)
Theorem unopened_stream_stops_the_run (w : World) (url dir : string) (s : Z)
    (e : option Z) (fs : FS) (st0 : State) (su : string) :
  os_makedirs w dir true (initial fs) = (inr tt, st0) →
  extract_info w url = Some (Some su) →
  isOpened (VideoCapture w su) = false →
  let r := run w url dir s e fs in
  r.1 = inl Py.RuntimeError ∧
  st_trace r.2 = [EvMakedirs dir; EvExtractInfo url; EvVideoCapture su] ∧
  files (st_fs r.2) = files fs ∧
  st_released r.2 = 0%nat.
Proof.
  intros Hmk Hinfo Hopen. cbv zeta.
  pose proof (os_makedirs_spec _ _ _ _ _ Hmk) as (Hst0 & Hfiles & _).
  unfold run, capture_every_second, bind. rewrite Hmk, acquire_cases.
  rewrite Hinfo. cbv zeta. rewrite Hopen, Hst0. simpl. by rewrite Hfiles.
Qed.

Lemma unopened_stream_stops_the_run_witness :
  let r := run (world_of clip_closed all_written) video "frames" 0 None empty_fs in
  r.1 = inl Py.RuntimeError ∧
  st_trace r.2 = [EvMakedirs "frames"; EvExtractInfo video;
                  EvVideoCapture "https://cdn.example/video.mp4"] ∧
  files (st_fs r.2) = files empty_fs ∧
  st_released r.2 = 0%nat.
Proof.
  refine (unopened_stream_stops_the_run (world_of clip_closed all_written)
            video "frames" 0 None empty_fs _
            "https://cdn.example/video.mp4" _ _ _).
  - vm_compute. reflexivity.
  - reflexivity.
  - reflexivity.
Defined.

(** When the frame rate is reported as NaN, the division does not raise and
    the duration is NaN.  With no end second the run then ends with
    [ValueError], raised by [int(duration)]; with an end second the
    comparison [end_sec > duration] is false, so the end second is used as
    given, without any clamp to the length of the stream. *)
Theorem nan_rate_never_clamps (w : World) (url dir : string) (s : Z)
    (e : option Z) (fs : FS) (st0 : State) (su : string) (fc : Z)
    (ffc : Py.float) :
  os_makedirs w dir true (initial fs) = (inr tt, st0) →
  extract_info w url = Some (Some su) →
  isOpened (VideoCapture w su) = true →
  Py.int (CAP_PROP_FRAME_COUNT (VideoCapture w su)) = inr fc →
  Py.float_of_int fc = inr ffc →
  CAP_PROP_FPS (VideoCapture w su) = S754_nan →
  ∃ st,
    prepare w url dir (initial fs) = (inr (VideoCapture w su, S754_nan), st) ∧
    match e with
    | None => run w url dir s e fs = (inl Py.ValueError, st)
    | Some n =>
        adjust_range s e S754_nan =
        if Z.max 0 s >? n then inl Py.ValueError else inr (Z.max 0 s, n)
    end.
Proof.
  intros Hmk Hinfo Hopen Hfc Hconv Hnan.
  assert (Py.truediv fc S754_nan = inr S754_nan) as Hdiv.
  { unfold Py.truediv. rewrite Hconv. simpl. by destruct ffc. }
  eexists. split.
  - unfold prepare, bind. rewrite Hmk, acquire_cases, Hinfo. cbv zeta.
    rewrite Hopen, Hfc, Hnan, Hdiv. reflexivity.
  - destruct e as [n|]; [done|].
    unfold run, capture_every_second, bind.
    rewrite Hmk, acquire_cases, Hinfo. cbv zeta.
    rewrite Hopen, Hfc, Hnan, Hdiv. reflexivity.
Qed.

Lemma nan_rate_never_clamps_witness :
  ∃ st,
    prepare (world_of clip_nan_rate all_written) video "frames"
      (initial empty_fs) =
      (inr (VideoCapture (world_of clip_nan_rate all_written)
              "https://cdn.example/video.mp4", S754_nan), st) ∧
    adjust_range 0 (Some 100000) S754_nan =
    if Z.max 0 0 >? 100000 then inl Py.ValueError else inr (Z.max 0 0, 100000).
Proof.
  refine (nan_rate_never_clamps (world_of clip_nan_rate all_written) video
            "frames" 0 (Some 100000) empty_fs _
            "https://cdn.example/video.mp4" 150 _ _ _ _ _ _ _).
  - vm_compute. reflexivity.
  - reflexivity.
  - reflexivity.
  - vm_compute. reflexivity.
  - vm_compute. reflexivity.
  - reflexivity.
Defined.

(** ** The name of a frame file *)

Lemma zeros_length (k : nat) : String.length (Py.zeros k) = k.
Proof. induction k as [|k IH]; simpl; [done|]. by rewrite IH. Qed.

Lemma format_04d_length (n : Z) :
  0 ≤ n →
  String.length (Py.format_04d n) =
  Nat.max 4 (String.length (Py.digits (Z.to_N n))).
Proof.
  intros Hn. unfold Py.format_04d.
  assert ((n <? 0) = false) as -> by lia.
  assert (Z.abs_N n = Z.to_N n) as -> by lia.
  change ("" +:+ ?s) with s.
  rewrite append_length, zeros_length. simpl. lia.
Qed.

Lemma digits_up_to_9999 (n : Z) :
  0 ≤ n ≤ 9999 → (String.length (Py.digits (Z.to_N n)) ≤ 4)%nat.
Proof.
  intros Hn.
  assert (forallb (λ i, String.length (Py.digits (N.of_nat i)) <=? 4)%nat
            (seq 0 (Z.to_nat 10000)) = true) as Hall by (vm_compute; reflexivity).
  rewrite forallb_forall in Hall.
  specialize (Hall (Z.to_nat n)).
  replace (N.of_nat (Z.to_nat n)) with (Z.to_N n) in Hall by lia.
  apply Nat.leb_le, Hall, in_seq. lia.
Qed.

(** The number in the name of a frame file is the second, written in
    decimal on at least 4 characters: exactly 4, with leading zeros, up to
    second 9999, and reading the digits back gives the second. *)
Theorem frame_number_reads_back (n : Z) :
  0 ≤ n →
  frame_name n = "frame_" +:+ Py.format_04d n +:+ ".jpg" ∧
  read_decimal (Py.format_04d n) = Some (Z.to_N n) ∧
  (4 ≤ String.length (Py.format_04d n))%nat ∧
  (n ≤ 9999 → String.length (Py.format_04d n) = 4%nat).
Proof.
  intros Hn. split; [done|]. split; [by apply read_format_04d|].
  rewrite format_04d_length by done. split; [lia|].
  intros Hle. pose proof (digits_up_to_9999 n). lia.
Qed.

Lemma frame_number_reads_back_witness :
  frame_name 948 = "frame_" +:+ Py.format_04d 948 +:+ ".jpg" ∧
  read_decimal (Py.format_04d 948) = Some (Z.to_N 948) ∧
  (4 ≤ String.length (Py.format_04d 948))%nat ∧
  (948 ≤ 9999 → String.length (Py.format_04d 948) = 4%nat).
Proof. apply frame_number_reads_back. lia. Defined.

(** ** The default range and the script *)

(** A float whose floor is not negative is not negative. *)
Lemma floor_nonneg (d : Py.float) (fl : Z) :
  floor_float d = Some fl → 0 ≤ fl → float_nonneg d = true.
Proof.
  destruct d as [sg|sg| |sg m ex]; simpl; try done.
  destruct sg; [|done]. intros [= <-] Hfl. exfalso.
  destruct (0 <=? ex) eqn:He.
  - apply Z.leb_le in He.
    assert (0 < 2 ^ ex) by (apply Z.pow_pos_nonneg; lia).
    change (Z.neg m) with (- Z.pos m) in Hfl. nia.
  - apply Z.leb_gt in He.
    assert (0 < 2 ^ (- ex)) as Hp by (apply Z.pow_pos_nonneg; lia).
    assert (Z.neg m / 2 ^ (- ex) < 0); [|lia].
    apply Z.div_lt_upper_bound; [done|]. change (Z.neg m) with (- Z.pos m). lia.
Qed.

(** Called with the link only (start 0, no end second) on a stream whose
    duration is finite and not negative, the procedure samples from second 0
    to [floor(duration)]: the range check cannot fail and second 0 is
    always sought. *)
Theorem default_range_accepted (w : World) (url : string) (fs : FS)
    (cap : Stream) (d : Py.float) (st : State) (fl : Z) :
  prepare w url default_output_dir (initial fs) = (inr (cap, d), st) →
  floor_float d = Some fl →
  0 ≤ fl →
  let r := run w url default_output_dir default_start_sec default_end_sec fs in
  adjust_range default_start_sec default_end_sec d = inr (0, fl) ∧
  r.1 ≠ inl Py.ValueError ∧
  EvSeek 0 ∈ st_trace r.2.
Proof.
  intros Hprep Hfl Hpos. cbv zeta.
  destruct (int_floor_bounds d fl Hfl) as (t & Ht & _ & Hnn).
  rewrite (Hnn (floor_nonneg d fl Hfl Hpos)) in Ht.
  assert (adjust_range default_start_sec default_end_sec d = inr (0, fl)) as Hadj.
  { unfold adjust_range, default_start_sec, default_end_sec. simpl. rewrite Ht.
    change (0 `max` 0) with 0.
    by destruct (Z.gtb_spec 0 fl); [lia|]. }
  split; [done|].
  destruct (run_shape w url default_output_dir default_start_sec
              default_end_sec fs cap d st 0 fl Hprep Hadj) as (k & Hk & Hmode).
  cbv zeta in Hmode. destruct k as [|k]; [lia|].
  assert (EvSeek 0 ∈ st_trace (process w cap default_output_dir
                                 (seconds 0 (S k)) st)) as Hseek.
  { rewrite process_trace. apply elem_of_app. right.
    apply seek_in_seconds. exists 0. split; [by left|done]. }
  destruct Hmode as [(-> & _)|(j & _ & _ & [[-> _]|[-> _]])]; cbn [fst snd].
  - split; [done|]. rewrite trace_after_release. apply elem_of_app. by left.
  - split; [done|]. rewrite trace_after_release. apply elem_of_app. by left.
  - split; [done|]. done.
Qed.

Lemma default_range_accepted_witness :
  let r := run (world_of clip_5s all_written) video default_output_dir
             default_start_sec default_end_sec empty_fs in
  adjust_range default_start_sec default_end_sec duration_5s = inr (0, 5) ∧
  r.1 ≠ inl Py.ValueError ∧
  EvSeek 0 ∈ st_trace r.2.
Proof.
  refine (default_range_accepted (world_of clip_5s all_written) video empty_fs
            clip_5s duration_5s (prepared 150 30) 5 _ _ _).
  - vm_compute. reflexivity.
  - vm_compute. reflexivity.
  - lia.
Defined.

(** ** Sampling a range in two runs *)

Section Split.
Context (w : World) (cap : Stream) (dir : string).

(** The loop after [k] seconds that decode and whose write does not raise. *)
Lemma capture_loop_prefix (k n : nat) (u : Z) (st : State) :
  (∀ v, v ∈ seconds u k →
        is_Some (frame_at cap (v * 1000)) ∧
        write_outcome w (dirs (st_fs st)) (frame_path dir v) ≠ Crashed) →
  capture_loop w cap dir (k + n) u st =
  capture_loop w cap dir n (u + Z.of_nat k) (process w cap dir (seconds u k) st).
Proof.
  revert u st. induction k as [|k IH]; intros u st Hgood.
  - simpl. by rewrite Z.add_0_r.
  - change (S k + n)%nat with (S (k + n)). rewrite capture_loop_body.
    destruct (Hgood u) as [[f Hf] Hw]; [by left|]. rewrite Hf.
    replace (u + Z.of_nat (S k)) with (u + 1 + Z.of_nat k) by lia.
    assert (capture_loop w cap dir (k + n) (u + 1) (after_second w cap dir u st) =
            capture_loop w cap dir n (u + 1 + Z.of_nat k)
              (process w cap dir (seconds u (S k)) st)) as Hrest.
    { apply IH. intros v Hv. rewrite body_dirs. apply Hgood. by right. }
    destruct (write_outcome w (dirs (st_fs st)) (frame_path dir u)); done.
Qed.

Lemma body_fs (u : Z) (st1 st2 : State) :
  st_fs st1 = st_fs st2 →
  st_fs (after_second w cap dir u st1) = st_fs (after_second w cap dir u st2).
Proof. intros H. unfold after_second. simpl. by rewrite H. Qed.

(** The way the loop ends and the file system it leaves depend on the
    file system it starts from only, not on the trace or the position. *)
Lemma capture_loop_fs (n : nat) (u : Z) (st1 st2 : State) :
  st_fs st1 = st_fs st2 →
  (capture_loop w cap dir n u st1).1 = (capture_loop w cap dir n u st2).1 ∧
  st_fs (capture_loop w cap dir n u st1).2 =
  st_fs (capture_loop w cap dir n u st2).2.
Proof.
  revert u st1 st2. induction n as [|n IH]; intros u st1 st2 Hfs; [done|].
  rewrite !capture_loop_body. pose proof (body_fs u st1 st2 Hfs) as Hb.
  rewrite Hfs.
  destruct (frame_at cap (u * 1000)); [|done].
  destruct (write_outcome w (dirs (st_fs st2)) (frame_path dir u));
    try done; by apply IH.
Qed.

End Split.

(** Preparing again on a file system that has the directory gives the same
    capture and the same duration, and leaves that file system as it is. *)
Lemma prepare_on_existing_directory (w : World) (url dir : string) (fs fs' : FS)
    cap d st :
  prepare w url dir (initial fs) = (inr (cap, d), st) →
  dir ∈ dirs fs' →
  ∃ st', prepare w url dir (initial fs') = (inr (cap, d), st') ∧ st_fs st' = fs'.
Proof.
  unfold prepare, bind. intros Hprep Hdir.
  rewrite os_makedirs_present by done.
  destruct (os_makedirs w dir true (initial fs)) as [[x|[]] st1]; [done|].
  rewrite acquire_cases in *.
  destruct (extract_info w url) as [[su|]|]; [|done..]. cbv zeta in *.
  destruct (isOpened (VideoCapture w su)); [|done].
  destruct (Py.int _) as [x|fc]; [done|].
  destruct (Py.truediv _ _) as [x|d']; [done|].
  simplify_eq. eexists. split; [reflexivity|done].
Qed.

(** Sampling up to second [b] and then, in a second run on what the first
    left, from [b + 1] to [c], ends the same way and leaves the same file
    system as sampling up to [c] in one run, provided the first run went
    through its whole range. *)
Theorem split_range_same_files (w : World) (url dir : string) (s b c : Z)
    (fs : FS) (cap : Stream) (d : Py.float) (st : State) (a : Z) :
  prepare w url dir (initial fs) = (inr (cap, d), st) →
  adjust_range s (Some b) d = inr (a, b) →
  adjust_range (b + 1) (Some c) d = inr (b + 1, c) →
  (run w url dir s (Some b) fs).1 = inr Exhausted →
  let fs1 := st_fs (run w url dir s (Some b) fs).2 in
  (run w url dir (b + 1) (Some c) fs1).1 = (run w url dir s (Some c) fs).1 ∧
  st_fs (run w url dir (b + 1) (Some c) fs1).2 =
  st_fs (run w url dir s (Some c) fs).2.
Proof.
  intros Hprep HadjA HadjB HretA. cbv zeta.
  pose proof (adjust_range_inv _ _ _ _ _ HadjA) as (Ha & _ & Hab).
  pose proof (adjust_range_inv _ _ _ _ _ HadjB) as (_ & HendC & Hbc).
  assert (adjust_range s (Some c) d = inr (a, c)) as HadjC.
  { unfold adjust_range. rewrite HendC, <- Ha.
    by destruct (Z.gtb_spec a c); [lia|]. }
  (* the first run *)
  revert HretA.
  rewrite (run_sampling _ _ _ _ _ _ _ _ _ Hprep) at 1 2 3.
  rewrite (sample_range _ _ _ _ _ _ _ _ _ HadjA).
  destruct (capture_loop w cap dir (range_len a (b + 1)) a st)
    as [rA stA] eqn:HloopA.
  apply capture_loop_inv in HloopA as (k & _ & -> & Hmode).
  destruct rA as [x|exitA]; [done|]. cbn [fst snd]. intros [= ->].
  destruct Hmode as [(_ & -> & Hgood)|(j & _ & _ & [[? _]|[? _]])]; [|done..].
  rewrite fs_after_release.
  set (k := range_len a (b + 1)) in *.
  assert (a + Z.of_nat k = b + 1) as Hk by (unfold k, range_len; lia).
  (* the run over the whole range *)
  rewrite (run_sampling _ _ _ _ _ _ _ _ _ Hprep).
  rewrite (sample_range _ _ _ _ _ _ _ _ _ HadjC).
  assert (range_len a (c + 1) = (k + range_len (b + 1) (c + 1))%nat) as ->
    by (unfold k, range_len; lia).
  rewrite (capture_loop_prefix w cap dir k _ a st Hgood), Hk.
  (* the second run *)
  pose proof (prepare_spec _ _ _ _ _ _ _ Hprep)
    as (_ & _ & _ & _ & _ & _ & _ & _ & _ & _ & Hdir & _).
  destruct (prepare_on_existing_directory w url dir fs
              (st_fs (process w cap dir (seconds a k) st)) cap d st Hprep)
    as (st' & Hprep' & Hfs'); [by rewrite process_dirs|].
  rewrite (run_sampling _ _ _ _ _ _ _ _ _ Hprep').
  rewrite (sample_range _ _ _ _ _ _ _ _ _ HadjB).
  destruct (capture_loop_fs w cap dir (range_len (b + 1) (c + 1)) (b + 1)
              st' (process w cap dir (seconds a k) st) Hfs') as [Hr Hf].
  destruct (capture_loop w cap dir _ (b + 1) st') as [[x|ex1] st1],
           (capture_loop w cap dir _ (b + 1) (process w cap dir _ st))
             as [[y|ex2] st2];
    cbn [fst snd] in *; simplify_eq; done.
Qed.

Lemma split_range_same_files_witness :
  let w := world_of clip_20s second_1_refused in
  let fs1 := st_fs (run w video "frames" 0 (Some 1) empty_fs).2 in
  (run w video "frames" (1 + 1) (Some 3) fs1).1 =
  (run w video "frames" 0 (Some 3) empty_fs).1 ∧
  st_fs (run w video "frames" (1 + 1) (Some 3) fs1).2 =
  st_fs (run w video "frames" 0 (Some 3) empty_fs).2.
Proof.
  refine (split_range_same_files (world_of clip_20s second_1_refused) video
            "frames" 0 1 3 empty_fs clip_20s _ (prepared 600 30) 0 _ _ _ _).
  - vm_compute. reflexivity.
  - vm_compute. reflexivity.
  - vm_compute. reflexivity.
  - vm_compute. reflexivity.
Defined.

(** ** What an exception tells *)

Section Errors.
Context (w : World).

Lemma mkdir_step_error (leaf : bool) (p : string) (st : State) x st' :
  mkdir_step w leaf p st = (inl x, st') → os_error x.
Proof.
  unfold mkdir_step, bind, get_fs, set_fs, ret, raise, os_error. simpl.
  repeat case_bool_decide; try destruct (may_mkdir w p); destruct leaf;
    intros [= <- <-]; auto.
Qed.

Lemma mkdir_all_error (ps : list string) (st : State) x st' :
  mkdir_all w ps st = (inl x, st') → os_error x.
Proof.
  revert st. induction ps as [|p ps IH]; intros st; simpl; [done|].
  unfold bind. destruct (mkdir_step w false p st) as [[y|[]] st1] eqn:E1.
  - intros [= <- <-]. by eapply mkdir_step_error.
  - apply IH.
Qed.

Lemma os_makedirs_error (name : string) (st : State) x st' :
  os_makedirs w name true st = (inl x, st') → os_error x.
Proof.
  rewrite os_makedirs_unfold. cbv zeta.
  repeat case_bool_decide; [done| |].
  - intros [= <- <-]. by left.
  - destruct (mkdir_all w _ _) as [[y|[]] st1] eqn:E1.
    + intros [= <- <-]. by eapply mkdir_all_error.
    + apply mkdir_step_error.
Qed.

Lemma int_error (f : Py.float) (x : Py.Exn) :
  Py.int f = inl x → x = Py.ValueError ∨ x = Py.OverflowError.
Proof. destruct f; simpl; intros [= <-]; auto. Qed.

Lemma truediv_error (n : Z) (d : Py.float) (x : Py.Exn) :
  Py.truediv n d = inl x →
  x = Py.OverflowError ∨ (x = Py.ZeroDivisionError ∧ Py.is_zero d = true).
Proof.
  unfold Py.truediv, Py.float_of_int.
  destruct (binary_normalize _ _ _ _ _); try (intros [= <-]; by left);
    destruct (Py.is_zero d); intros [= <-]; auto.
Qed.

(** The exception a run ends with tells where it stopped: an OS error comes
    from the creation of the directory, which then does not exist;
    [DownloadError] and [KeyError] from the resolver; [RuntimeError] from a
    stream that did not open; [ZeroDivisionError] from a frame rate of zero;
    [cv2.error] from a call of [cv2.imwrite] that raised.  ([ValueError] and
    [OverflowError] have several origins: the range check and [int] of a
    NaN or infinite frame count or duration.) *)
Theorem exception_tells_the_stage (url dir : string) (s : Z) (e : option Z)
    (fs : FS) (x : Py.Exn) :
  (run w url dir s e fs).1 = inl x →
  match x with
  | Py.FileNotFoundError | Py.FileExistsError | Py.NotADirectoryError
  | Py.PermissionError =>
      (dir ∉ dirs (st_fs (run w url dir s e fs).2)) ∧
      st_trace (run w url dir s e fs).2 = [EvMakedirs dir]
  | Py.DownloadError => extract_info w url = None
  | Py.KeyError => extract_info w url = Some None
  | Py.RuntimeError =>
      ∃ su, extract_info w url = Some (Some su) ∧
            isOpened (VideoCapture w su) = false
  | Py.ZeroDivisionError =>
      ∃ su, extract_info w url = Some (Some su) ∧
            Py.is_zero (CAP_PROP_FPS (VideoCapture w su)) = true
  | Py.CvError =>
      ∃ fname img, EvImwrite fname img Crashed ∈ st_trace (run w url dir s e fs).2
  | Py.ValueError | Py.OverflowError => True
  end.
Proof.
  rewrite run_prepare.
  destruct (prepare w url dir (initial fs)) as [[y|[cap d]] st] eqn:Hprep.
  - cbn [fst snd]. intros [= ->].
    unfold prepare, bind in Hprep.
    destruct (os_makedirs w dir true (initial fs)) as [[z|[]] st1] eqn:Hmk.
    + simplify_eq.
      pose proof (os_makedirs_spec _ _ _ _ _ Hmk) as (Hst & _ & _ & _ & Herr).
      specialize (Herr x eq_refl).
      assert (st_trace st = [EvMakedirs dir]) as Htr by (by rewrite Hst).
      apply os_makedirs_error in Hmk as [ -> | [ -> | [ -> | -> ]]]; done.
    + rewrite acquire_cases in Hprep.
      destruct (extract_info w url) as [[su|]|] eqn:Hinfo;
        [|by simplify_eq..]. cbv zeta in Hprep.
      destruct (isOpened (VideoCapture w su)) eqn:Hopen;
        [|simplify_eq; eauto].
      destruct (Py.int _) as [z|fc] eqn:Hfc.
      { simplify_eq. by apply int_error in Hfc as [ -> | -> ]. }
      destruct (Py.truediv _ _) as [z|d] eqn:Hdiv; [|done].
      simplify_eq. apply truediv_error in Hdiv as [ -> | [ -> Hz]]; eauto.
  - cbn [fst snd].
    destruct (adjust_range s e d) as [z|[a b]] eqn:Hadj.
    + rewrite (sample_rejected _ _ _ _ _ _ _ _ Hadj). cbn [fst snd].
      intros [= ->]. unfold adjust_range in Hadj.
      destruct (clamp_end e d) as [z|b] eqn:Hend.
      * simplify_eq. unfold clamp_end in Hend.
        destruct e as [n|]; [destruct (Py.int_gt_float n d); [|done]|];
          by apply int_error in Hend as [ -> | -> ].
      * destruct (_ >? _); by simplify_eq.
    + rewrite <- (run_sampling w url dir s e fs cap d st Hprep).
      destruct (run_shape w url dir s e fs cap d st a b Hprep Hadj)
        as (k & Hk & Hmode). cbv zeta in Hmode.
      destruct Hmode as [(-> & _)|(j & -> & _ & [[-> _]|(-> & [f Hf] & Hcr)])];
        [done..|].
      cbn [fst snd]. intros [= <-].
      exists (frame_path dir (a + Z.of_nat j)), f.
      rewrite process_trace, seconds_snoc, flat_map_app.
      apply elem_of_app. right. apply elem_of_app. right. simpl.
      unfold second_events. rewrite Hf, Hcr, app_nil_r.
      do 2 right. by left.
Qed.

End Errors.

Lemma exception_tells_the_stage_witness :
  ∃ su, extract_info (world_of clip_closed all_written) video = Some (Some su) ∧
        isOpened (VideoCapture (world_of clip_closed all_written) su) = false.
Proof.
  apply (exception_tells_the_stage (world_of clip_closed all_written) video
           "frames" 0 None empty_fs Py.RuntimeError).
  vm_compute. reflexivity.
Defined.

(** ** The script *)

(** Run as a script, the file passes the placeholder ["url here"] as the
    link.  Whenever the resolver does not resolve the placeholder, the
    script ends with an exception before any stream is opened: an OS error
    if [output_frames] cannot be created, else [DownloadError] or
    [KeyError] from the resolver, with [output_frames] left behind.  The
    range 948 to 1110 is never looked at: nothing is sought, nothing is
    handed to [cv2.imwrite] and no file changes. *)
Theorem main_stops_at_the_placeholder (w : World) (fs : FS) :
  (∀ su, extract_info w YOUTUBE_URL ≠ Some (Some su)) →
  let r := main w (initial fs) in
  (∃ x, r.1 = inl x ∧ (os_error x ∨ x = Py.DownloadError ∨ x = Py.KeyError)) ∧
  (r.1 = inl Py.DownloadError ∨ r.1 = inl Py.KeyError →
   "output_frames" ∈ dirs (st_fs r.2)) ∧
  (∀ ev, ev ∈ st_trace r.2 →
         ev = EvMakedirs "output_frames" ∨ ev = EvExtractInfo YOUTUBE_URL) ∧
  write_attempts (st_trace r.2) = [] ∧
  files (st_fs r.2) = files fs ∧
  st_released r.2 = 0%nat.
Proof.
  intros Hinfo. cbv zeta.
  change (main w (initial fs))
    with (run w YOUTUBE_URL "output_frames" 948 (Some 1110) fs).
  unfold run, capture_every_second, bind.
  destruct (os_makedirs w "output_frames" true (initial fs))
    as [[x|[]] st0] eqn:Hmk.
  - pose proof (os_makedirs_spec _ _ _ _ _ Hmk) as (Hst0 & Hfiles & _).
    pose proof (os_makedirs_error _ _ _ _ _ Hmk) as Hos.
    cbn [fst snd]. rewrite Hst0. simpl.
    split; [eauto|]. split; [intros [?|?]; simplify_eq; by repeat destruct Hos as [?|Hos]|].
    split; [|by rewrite Hfiles].
    intros ev Hev. apply elem_of_cons in Hev as [->|Hev]; [by left|].
    by apply elem_of_nil in Hev.
  - pose proof (os_makedirs_spec _ _ _ _ _ Hmk) as (Hst0 & Hfiles & _ & Hok & _).
    destruct (Hok eq_refl) as [Hdir _].
    rewrite acquire_cases.
    assert (∀ x, (x = Py.DownloadError ∨ x = Py.KeyError) →
      let r := (inl x : Py.Exn + LoopExit, log [EvExtractInfo YOUTUBE_URL] st0) in
      (∃ y, r.1 = inl y ∧ (os_error y ∨ y = Py.DownloadError ∨ y = Py.KeyError)) ∧
      (r.1 = inl Py.DownloadError ∨ r.1 = inl Py.KeyError →
       "output_frames" ∈ dirs (st_fs r.2)) ∧
      (∀ ev, ev ∈ st_trace r.2 →
             ev = EvMakedirs "output_frames" ∨ ev = EvExtractInfo YOUTUBE_URL) ∧
      write_attempts (st_trace r.2) = [] ∧
      files (st_fs r.2) = files fs ∧
      st_released r.2 = 0%nat) as Hend.
    { intros x Hx. cbv zeta. cbn [fst snd]. rewrite Hst0. simpl.
      split; [exists x; split; [done|by right]|]. split; [done|].
      split; [|by rewrite Hfiles].
      intros ev Hev. apply elem_of_cons in Hev as [->|Hev]; [by left|].
      apply elem_of_cons in Hev as [->|Hev]; [by right|].
      by apply elem_of_nil in Hev. }
    destruct (extract_info w YOUTUBE_URL) as [[su|]|] eqn:Hres.
    + by destruct (Hinfo su).
    + apply (Hend Py.KeyError). by right.
    + apply (Hend Py.DownloadError). by left.
Qed.

Lemma main_stops_at_the_placeholder_witness :
  let r := main world_offline (initial empty_fs) in
  (∃ x, r.1 = inl x ∧ (os_error x ∨ x = Py.DownloadError ∨ x = Py.KeyError)) ∧
  (r.1 = inl Py.DownloadError ∨ r.1 = inl Py.KeyError →
   "output_frames" ∈ dirs (st_fs r.2)) ∧
  (∀ ev, ev ∈ st_trace r.2 →
         ev = EvMakedirs "output_frames" ∨ ev = EvExtractInfo YOUTUBE_URL) ∧
  write_attempts (st_trace r.2) = [] ∧
  files (st_fs r.2) = files empty_fs ∧
  st_released r.2 = 0%nat.
Proof.
  apply (main_stops_at_the_placeholder world_offline empty_fs).
  intros su. discriminate.
Defined.
